(** * borgwrap: the policy-to-command compiler, the hook pipeline and the
    backup age/size check of [borgwraplib/app.py], embedded in Rocq.

    The configuration is whatever [yaml.safe_load] returns, so the embedding
    starts from a type of loaded documents and from the handful of Python
    operations [app.py] applies to them ([d[k]], [k in d], [for x in d],
    [==], [str], [+=]).  The functions of [app.py] are then transcribed over
    a small trace-and-exception monad: the trace records, in order, every
    process the program launches and every line it prints. *)

From Stdlib Require Import List String Ascii ZArith QArith Bool Lia.
From Stdlib Require Import Permutation.
From Stdlib Require Import DecimalString.
Import ListNotations.

Local Open Scope string_scope.
Local Open Scope Z_scope.
Local Open Scope list_scope.
Set Warnings "-register-all".

(** ** Loaded documents *)

(** A Python float seen as the number it denotes.  Every finite double is a
    rational, so quantifying over [Q] covers every float a document can hold
    (and more). *)
Inductive pyfloat : Type :=
| FFinite (q : Q)
| FInf (negative : bool)
| FNan.

(** The values of a loaded document: [None], [bool], [int], [float], [str],
    [list] and [dict].  A mapping keeps its entries in document order and is
    looked up by string key, as JSON objects and the policy documents are. *)
Inductive value : Type :=
| VNone
| VBool (b : bool)
| VInt (z : Z)
| VFloat (f : pyfloat)
| VStr (s : string)
| VList (l : list value)
| VDict (d : list (string * value)).

Definition dict : Type := list (string * value).

(** Uncaught Python exceptions the program can end with. *)
Inductive exn : Type :=
| KeyError (key : string)
| IndexError
| TypeError
| ValueError
| YAMLError
| CalledProcessError (returncode : Z)
| SystemExit (code : Z).

Inductive result (A : Type) : Type :=
| Ok (a : A)
| Raise (e : exn).
Arguments Ok {A} a.
Arguments Raise {A} e.

Definition rbind {A B} (r : result A) (k : A -> result B) : result B :=
  match r with
  | Ok a => k a
  | Raise e => Raise e
  end.

(** ** Python operations on documents *)

Module Py.

(** [d.get(k)] on the entries of a mapping: the first entry named [k]. *)
Fixpoint get (k : string) (d : dict) : option value :=
  match d with
  | [] => None
  | (k', v) :: d' => if String.eqb k k' then Some v else get k d'
  end.

(** [d[k] = v]: overwrite the entry in place, or append a new one. *)
Fixpoint set (k : string) (v : value) (d : dict) : dict :=
  match d with
  | [] => [(k, v)]
  | (k', v') :: d' =>
      if String.eqb k k' then (k', v) :: d' else (k', v') :: set k v d'
  end.

(** [v[k]] for a string key [k]. *)
Definition getitem (v : value) (k : string) : result value :=
  match v with
  | VDict d =>
      match get k d with
      | Some x => Ok x
      | None => Raise (KeyError k)
      end
  | _ => Raise TypeError
  end.

(** The characters of a string, each as a one-character string. *)
Fixpoint chars (s : string) : list value :=
  match s with
  | EmptyString => []
  | String c s' => VStr (String c EmptyString) :: chars s'
  end.

(** [v[0]]. *)
Definition getitem0 (v : value) : result value :=
  match v with
  | VList (x :: _) => Ok x
  | VList [] => Raise IndexError
  | VStr (String c _) => Ok (VStr (String c EmptyString))
  | VStr EmptyString => Raise IndexError
  | VDict _ => Raise (KeyError "0")
  | _ => Raise TypeError
  end.

(** [k in s] for two strings: [k] occurs in [s]. *)
Fixpoint occurs (k s : string) : bool :=
  String.prefix k s ||
  match s with
  | EmptyString => false
  | String _ s' => occurs k s'
  end.

Definition is_str (k : string) (v : value) : bool :=
  match v with
  | VStr s => String.eqb k s
  | _ => false
  end.

(** [k in v] for a string [k]. *)
Definition contains (k : string) (v : value) : result bool :=
  match v with
  | VDict d => Ok (match get k d with Some _ => true | None => false end)
  | VList l => Ok (existsb (is_str k) l)
  | VStr s => Ok (occurs k s)
  | _ => Raise TypeError
  end.

(** [for x in v]: the items the loop visits. *)
Definition iter (v : value) : result (list value) :=
  match v with
  | VList l => Ok l
  | VStr s => Ok (chars s)
  | VDict d => Ok (map (fun kv => VStr (fst kv)) d)
  | _ => Raise TypeError
  end.

Definition str_of_Z (z : Z) : string := NilZero.string_of_int (Z.to_int z).

Section Str.
(** [str] of a float, a list or a mapping is Python's [repr] of it; its
    text is left open. *)
Variable repr : value -> string.

(** [str(v)], also what ["{}".format(v)] inserts. *)
Definition str (v : value) : string :=
  match v with
  | VNone => "None"
  | VBool true => "True"
  | VBool false => "False"
  | VInt z => str_of_Z z
  | VStr s => s
  | _ => repr v
  end.
End Str.

(** [v += s] for a string [s]: concatenation on a string, [extend] by the
    characters of [s] on a list. *)
Definition iadd_str (v : value) (s : string) : result value :=
  match v with
  | VStr r => Ok (VStr (r ++ s))
  | VList l => Ok (VList (l ++ chars s)%list)
  | _ => Raise TypeError
  end.

(** [l + v] for a list [l]. *)
Definition list_add (l : list value) (v : value) : result (list value) :=
  match v with
  | VList l' => Ok (l ++ l')%list
  | _ => Raise TypeError
  end.

(** [config[a][b]] and [k in config[a]]. *)
Definition getitem2 (config : value) (a b : string) : result value :=
  rbind (getitem config a) (fun x => getitem x b).

Definition contains_at (k : string) (config : value) (a : string)
  : result bool :=
  rbind (getitem config a) (contains k).

(** [v == 1]. *)
Definition eq_one (v : value) : bool :=
  match v with
  | VBool b => b
  | VInt z => z =? 1
  | VFloat (FFinite q) => Qeq_bool q 1
  | _ => false
  end.

(** [v < m] for an integer [m]. *)
Definition lt_int (v : value) (m : Z) : result bool :=
  match v with
  | VBool b => Ok ((if b then 1 else 0) <? m)
  | VInt z => Ok (z <? m)
  | VFloat (FFinite q) => Ok (negb (Qle_bool (inject_Z m) q))
  | VFloat (FInf negative) => Ok negative
  | VFloat FNan => Ok false
  | _ => Raise TypeError
  end.

End Py.

(** ** Truthy-boolean coercion *)

(** [c.lower()] on one character.  Only the letters A-Z are folded: no other
    character lowers to a letter of "yes" or "true". *)
Definition lower_ascii (c : ascii) : ascii :=
  let n := nat_of_ascii c in
  if ((65 <=? n) && (n <=? 90))%nat then ascii_of_nat (n + 32) else c.

Fixpoint lower (s : string) : string :=
  match s with
  | EmptyString => EmptyString
  | String c s' => String (lower_ascii c) (lower s')
  end.

Definition config_is_true (value : value) : bool :=
  match value with
  | VBool b => b
  | VStr s =>
      if String.eqb (lower s) "yes" || String.eqb (lower s) "true" then true
      else Py.eq_one value
  | _ => Py.eq_one value
  end.

(** ** The processes launched and the lines printed *)

Inductive event : Type :=
| Launch (cmds : list value) (borg_rsh : option value) (capture : bool)
| Hook (hook : value)
| Print (line : string).

(** A computation reads the history so far, extends it, and either returns
    or raises. *)
Definition M (A : Type) : Type := list event -> result A * list event.

Definition ret {A} (a : A) : M A := fun h => (Ok a, h).
Definition raise {A} (e : exn) : M A := fun h => (Raise e, h).
Definition lift {A} (r : result A) : M A := fun h => (r, h).
Definition emit (e : event) : M unit := fun h => (Ok tt, (h ++ [e])%list).

Definition bind {A B} (m : M A) (k : A -> M B) : M B :=
  fun h =>
    match m h with
    | (Ok a, h') => k a h'
    | (Raise e, h') => (Raise e, h')
    end.

Notation "x <- m ;; k" := (bind m (fun x => k))
  (at level 61, m at next level, right associativity).
Notation "m ;; k" := (bind m (fun _ => k))
  (at level 61, right associativity).

Fixpoint for_each {A} (body : A -> M unit) (l : list A) : M unit :=
  match l with
  | [] => ret tt
  | x :: l' => body x ;; for_each body l'
  end.

Definition print (line : string) : M unit := emit (Print line).
Definition sys_exit (code : Z) : M unit := raise (SystemExit code).

Definition nl : string := String (ascii_of_nat 10) EmptyString.
Definition dquote : string := String (ascii_of_nat 34) EmptyString.

Record Args : Type := {
  dry_run : bool;
  no_prune : bool;
  max_age : Z;
  min_size : option Z
}.

(** ** The policy read out of a document *)

Inductive retention_kind : Type :=
| keep_last | keep_within | keep_hourly | keep_daily
| keep_weekly | keep_monthly | keep_yearly.

(** The canonical order of the retention flags. *)
Definition retention_kinds : list retention_kind :=
  [keep_last; keep_within; keep_hourly; keep_daily;
   keep_weekly; keep_monthly; keep_yearly].

Definition kind_name (k : retention_kind) : string :=
  match k with
  | keep_last => "last"
  | keep_within => "within"
  | keep_hourly => "hourly"
  | keep_daily => "daily"
  | keep_weekly => "weekly"
  | keep_monthly => "monthly"
  | keep_yearly => "yearly"
  end.

Definition kind_key (k : retention_kind) : string := "keep_" ++ kind_name k.
Definition kind_flag (k : retention_kind) : string := "--keep-" ++ kind_name k.

(** A retention value: an integer count or a duration string. *)
Inductive amount : Type :=
| Count (n : Z)
| Duration (s : string).

Inductive sources : Type :=
| OnePath (s : string)
| Paths (l : list string).

Record BackupPolicy : Type := {
  remote_repository : string;
  remote_prefix : string;
  remote_compression : option string;
  remote_rsh : option string;
  location_source : sources;
  location_one_file_system : option value;
  location_exclude_caches : option value;
  location_exclude_if_present : option (list string);
  location_exclude : option (list string);
  retention : retention_kind -> option amount;
  before_hooks : list string;
  after_hooks : list string
}.

Definition strs (l : list string) : value := VList (map VStr l).

Definition sources_value (s : sources) : value :=
  match s with
  | OnePath s => VStr s
  | Paths l => strs l
  end.

Definition amount_value (a : amount) : value :=
  match a with
  | Count n => VInt n
  | Duration s => VStr s
  end.

Definition amount_text (a : amount) : string :=
  match a with
  | Count n => Py.str_of_Z n
  | Duration s => s
  end.

(** A document carries a policy when it answers every lookup the policy
    determines; nothing is said about the order of its keys or about keys the
    policy does not mention. *)
Definition has_remote (p : BackupPolicy) (config : value) : Prop :=
  exists d r,
    config = VDict d /\ Py.get "remote" d = Some (VDict r) /\
    Py.get "repository" r = Some (VStr (remote_repository p)) /\
    Py.get "prefix" r = Some (VStr (remote_prefix p)) /\
    Py.get "compression" r = option_map VStr (remote_compression p) /\
    Py.get "rsh" r = option_map VStr (remote_rsh p).

Definition has_location (p : BackupPolicy) (config : value) : Prop :=
  exists d l,
    config = VDict d /\ Py.get "location" d = Some (VDict l) /\
    Py.get "source" l = Some (sources_value (location_source p)) /\
    Py.get "one_file_system" l = location_one_file_system p /\
    Py.get "exclude_caches" l = location_exclude_caches p /\
    Py.get "exclude_if_present" l
      = option_map strs (location_exclude_if_present p) /\
    Py.get "exclude" l = option_map strs (location_exclude p).

Definition has_retention (p : BackupPolicy) (config : value) : Prop :=
  exists d t,
    config = VDict d /\ Py.get "retention" d = Some (VDict t) /\
    forall k, Py.get (kind_key k) t = option_map amount_value (retention p k).

(** A hook list is absent (no [hooks] section, or no such key in it) exactly
    when the policy has no hook of that kind. *)
Definition has_hook_list (which : string) (hooks : list string) (d : dict)
    : Prop :=
  match Py.get "hooks" d with
  | None => hooks = []
  | Some (VDict hk) =>
      match Py.get which hk with
      | None => hooks = []
      | Some v => v = strs hooks
      end
  | Some _ => False
  end.

Definition has_hooks (p : BackupPolicy) (config : value) : Prop :=
  exists d,
    config = VDict d /\
    has_hook_list "before" (before_hooks p) d /\
    has_hook_list "after" (after_hooks p) d.

Definition valid_policy (p : BackupPolicy) (config : value) : Prop :=
  has_remote p config /\ has_location p config /\
  has_retention p config /\ has_hooks p config.

(** ** The command lines the policy stands for *)

Definition truthy (v : option value) : bool :=
  match v with
  | Some v => config_is_true v
  | None => false
  end.

Definition opt_flag (flag : string) (v : option string) : list string :=
  match v with
  | Some x => [flag; x]
  | None => []
  end.

Definition each_flag (flag : string) (v : option (list string)) : list string :=
  match v with
  | Some l => flat_map (fun x => [flag; x]) l
  | None => []
  end.

Definition source_paths (s : sources) : list string :=
  match s with
  | OnePath s => [s]
  | Paths l => l
  end.

Definition timestamp_placeholder : string := "{utcnow:%Y-%m-%dT%H:%M:%SZ}".

(** The repository argument: with the archive template for [create], bare
    for every other action. *)
Definition repository_argument (p : BackupPolicy) (archive : bool) : string :=
  if archive then
    remote_repository p ++ "::" ++ remote_prefix p ++ "-"
    ++ timestamp_placeholder
  else remote_repository p.

Definition create_command (p : BackupPolicy) (dry_run : bool) : list string :=
  (["borgbackup"; "create"]
   ++ opt_flag "--compression" (remote_compression p)
   ++ (if truthy (location_one_file_system p) then ["--one-file-system"] else [])
   ++ (if truthy (location_exclude_caches p) then ["--exclude-caches"] else [])
   ++ each_flag "--exclude-if-present" (location_exclude_if_present p)
   ++ each_flag "--exclude" (location_exclude p)
   ++ (if dry_run then ["--dry-run"] else [])
   ++ [repository_argument p true]
   ++ source_paths (location_source p))%list.

Definition keep_flag (p : BackupPolicy) (k : retention_kind) : list string :=
  match retention p k with
  | Some a => [kind_flag k; amount_text a]
  | None => []
  end.

Definition prune_command (p : BackupPolicy) (dry_run : bool) : list string :=
  (["borgbackup"; "prune"; "--stats"; "--list"; "--prefix"; remote_prefix p]
   ++ (if dry_run then ["--dry-run"] else [])
   ++ flat_map (keep_flag p) retention_kinds
   ++ [repository_argument p false])%list.

(** The outcome of a launch that the tool ends with [status]. *)
Definition launched (status : Z) : result unit :=
  if status =? 0 then Ok tt else Raise (CalledProcessError status).

(** ** The monitoring report and its verdicts *)

(** The most recent archive of a well-formed report: [archives[0]] with its
    [start] text and its [stats.original_size]. *)
Definition latest_archive (report : value) (start : string) (size : Z) : Prop :=
  exists d rest a st,
    report = VDict d /\
    Py.get "archives" d = Some (VList (VDict a :: rest)) /\
    Py.get "start" a = Some (VStr start) /\
    Py.get "stats" a = Some (VDict st) /\
    Py.get "original_size" st = Some (VInt size).

Definition archive_record_ok (a : value) : bool :=
  match a with
  | VDict a =>
      match Py.get "start" a, Py.get "stats" a with
      | Some (VStr _), Some (VDict st) =>
          match Py.get "original_size" st with
          | Some (VInt _) => true
          | _ => false
          end
      | _, _ => false
      end
  | _ => false
  end.

(** The shape of the status output: a mapping whose [archives] entry is a
    non-empty list of well-formed records. *)
Definition report_well_formed (report : value) : bool :=
  match report with
  | VDict d =>
      match Py.get "archives" d with
      | Some (VList (a :: rest)) => forallb archive_record_ok (a :: rest)
      | _ => false
      end
  | _ => false
  end.

Definition ok_message : string := "BORGBACKUP OK".

Definition too_old_message (start : string) : string :=
  "BORGBACKUP WARNING: last backup too old" ++ nl ++ nl ++ start.

Definition too_small_prefix : string :=
  "BORGBACKUP WARNING: last backup too small".

Definition too_small_message (size min : Z) : string :=
  too_small_prefix ++ nl ++ nl
  ++ Py.str_of_Z size ++ "B < " ++ Py.str_of_Z min ++ "B".

Definition info_command (p : BackupPolicy) : list value :=
  map VStr ["borgbackup"; "info"; "--last"; "1"; "--json";
            repository_argument p false].

(** ** Documents with a required entry missing *)

(** [config[a][b]] is missing: there is no [a] section, or the section is a
    mapping without a [b] entry. *)
Definition lacks (config : value) (a b : string) : Prop :=
  exists d,
    config = VDict d /\
    (Py.get a d = None \/
     exists x, Py.get a d = Some (VDict x) /\ Py.get b x = None).

Definition lacks_section (config : value) (a : string) : Prop :=
  exists d, config = VDict d /\ Py.get a d = None.

(** The document with [location.source] replaced by [v]. *)
Definition with_source (config : value) (v : value) : value :=
  match config with
  | VDict d =>
      match Py.get "location" d with
      | Some (VDict l) =>
          VDict (Py.set "location" (VDict (Py.set "source" v l)) d)
      | _ => config
      end
  | _ => config
  end.

(** Two strings are equal case-insensitively. *)
Definition same_ignoring_case (s t : string) : Prop := lower s = lower t.

Definition is_launch (e : event) : bool :=
  match e with
  | Launch _ _ _ => true
  | _ => false
  end.

Definition hook_event (hook : string) : event := Hook (VStr hook).

(** ** Sample documents and worlds *)

Module Sample.

Definition repr (v : value) : string := "?".

(** A world in which the tool and every hook succeed. *)
Definition tool (h : list event) (cmds : list value) (env : option value)
    (capture : bool) : Z * string :=
  (0, "{json}").

Definition hook_status (h : list event) (hook : value) : Z := 0.

(** A world in which the hook [false] exits with status 1. *)
Definition hook_status_false (h : list event) (hook : value) : Z :=
  if Py.is_str "false" hook then 1 else 0.

(** A clock that finds every archive ten hours old. *)
Definition seconds_since (h : list event) (start : string) : result Q :=
  Ok (inject_Z 36000).

Definition policy : BackupPolicy := {|
  remote_repository := "/path/testrepo";
  remote_prefix := "testprefix";
  remote_compression := Some "lz4";
  remote_rsh := None;
  location_source := Paths ["source1"; "source2"];
  location_one_file_system := Some (VStr "Yes");
  location_exclude_caches := Some (VInt 0);
  location_exclude_if_present := None;
  location_exclude := Some ["*.tmp"; "/proc"];
  retention := fun k =>
    match k with
    | keep_daily => Some (Count 7)
    | keep_within => Some (Duration "2d")
    | _ => None
    end;
  before_hooks := ["echo start"; "false"; "echo never"];
  after_hooks := ["echo done"]
|}.

Definition remote : value :=
  VDict [("prefix", VStr "testprefix"); ("compression", VStr "lz4");
         ("repository", VStr "/path/testrepo")].

Definition location : value :=
  VDict [("exclude", strs ["*.tmp"; "/proc"]); ("exclude_caches", VInt 0);
         ("one_file_system", VStr "Yes");
         ("source", strs ["source1"; "source2"])].

Definition hooks : value :=
  VDict [("after", strs ["echo done"]);
         ("before", strs ["echo start"; "false"; "echo never"])].

Definition config : value :=
  VDict [("retention", VDict [("keep_daily", VInt 7);
                             ("keep_within", VStr "2d")]);
         ("hooks", hooks); ("location", location); ("remote", remote)].

(** The same document with a single source path. *)
Definition config_one_source : value :=
  VDict [("location", VDict [("source", VStr "source1")]);
         ("remote", remote)].

(** Documents with a required entry missing. *)
Definition config_no_repository : value :=
  VDict [("hooks", VDict [("before", strs ["echo start"])]);
         ("location", location);
         ("remote", VDict [("prefix", VStr "testprefix")])].


Definition config_no_source : value :=
  VDict [("location", VDict [("exclude", strs ["*.tmp"])]);
         ("remote", remote)].

Definition config_no_retention : value :=
  VDict [("location", location); ("remote", remote)].

Definition config_empty_retention : value :=
  VDict [("location", location); ("remote", remote); ("retention", VDict [])].

Definition policy_no_retention : BackupPolicy := {|
  remote_repository := "/path/testrepo";
  remote_prefix := "testprefix";
  remote_compression := Some "lz4";
  remote_rsh := None;
  location_source := Paths ["source1"; "source2"];
  location_one_file_system := Some (VStr "Yes");
  location_exclude_caches := Some (VInt 0);
  location_exclude_if_present := None;
  location_exclude := Some ["*.tmp"; "/proc"];
  retention := fun _ => None;
  before_hooks := [];
  after_hooks := []
|}.

(** Status reports. *)
Definition start : string := "2026-11-03T16:00:00.000000".

Definition report : value :=
  VDict [("archives",
          VList [VDict [("start", VStr start);
                        ("stats", VDict [("original_size", VInt 5000000)])]])].

Definition report_empty : dict := [("archives", VList [])].

(** The first record has no [stats]. *)
Definition report_no_stats : dict :=
  [("archives", VList [VDict [("start", VStr start)]])].

Definition safe_load (out : string) : result value := Ok report.
Definition safe_load_empty (out : string) : result value :=
  Ok (VDict report_empty).
Definition safe_load_no_stats (out : string) : result value :=
  Ok (VDict report_no_stats).

Definition args : Args :=
  {| dry_run := false; no_prune := false; max_age := 6; min_size := None |}.

End Sample.

(** ** Further sample documents and worlds *)

Definition is_hook (e : event) : bool :=
  match e with
  | Hook _ => true
  | _ => false
  end.

Module Edge.

(** A world in which the tool fails on [create] with status 2. *)
Definition tool_create_fails (h : list event) (cmds : list value)
    (env : option value) (capture : bool) : Z * string :=
  if existsb (Py.is_str "create") cmds then (2, "") else (0, "").

(** A world in which the tool always fails with status 2. *)
Definition tool_fails (h : list event) (cmds : list value)
    (env : option value) (capture : bool) : Z * string :=
  (2, "").




(** A document whose [exclude] is a string instead of a list. *)
Definition location_exclude_string : dict :=
  [("source", strs ["source1"]); ("exclude", VStr "*.o")].

Definition doc_exclude_string : dict :=
  [("location", VDict location_exclude_string); ("remote", Sample.remote)].

Definition config_exclude_string : value := VDict doc_exclude_string.

(** A document whose [hooks] section is empty. *)
Definition doc_hooks_null : dict :=
  [("hooks", VNone); ("location", Sample.location); ("remote", Sample.remote)].

Definition config_hooks_null : value := VDict doc_hooks_null.

(** A report whose size is not a number, and one without a size. *)
Definition stats_text_size : dict := [("original_size", VStr "big")].

Definition record_text_size : dict :=
  [("start", VStr Sample.start); ("stats", VDict stats_text_size)].

Definition report_text_size : dict :=
  [("archives", VList [VDict record_text_size])].

Definition safe_load_text_size (out : string) : result value :=
  Ok (VDict report_text_size).

Definition safe_load_fails (out : string) : result value := Raise YAMLError.

Definition args_dry : Args :=
  {| dry_run := true; no_prune := false; max_age := 6; min_size := None |}.

Definition args_check : Args :=
  {| dry_run := false; no_prune := false; max_age := 24; min_size := Some 10 |}.

(** The document of the test suite: sources, repository and prefix only. *)
Definition config_test : value :=
  VDict [("location", VDict [("source", strs ["source1"; "source2"])]);
         ("remote", VDict [("repository", VStr "/path/testrepo");
                           ("prefix", VStr "testprefix")])].

Definition policy_test : BackupPolicy := {|
  remote_repository := "/path/testrepo";
  remote_prefix := "testprefix";
  remote_compression := None;
  remote_rsh := None;
  location_source := Paths ["source1"; "source2"];
  location_one_file_system := None;
  location_exclude_caches := None;
  location_exclude_if_present := None;
  location_exclude := None;
  retention := fun _ => None;
  before_hooks := [];
  after_hooks := []
|}.

Definition args_no_prune : Args :=
  {| dry_run := false; no_prune := true; max_age := 6; min_size := None |}.

End Edge.

(** ** The program *)

Section App.

Set Default Proof Using "Type".

(** What lies outside [app.py]: the external tool and the hooks (their exit
    status, and for the tool its captured standard output, may depend on
    everything that ran before), the YAML loader applied to that output,
    the clock, and [repr]. *)
Variable repr : value -> string.
Variable tool : list event -> list value -> option value -> bool -> Z * string.
Variable hook_status : list event -> value -> Z.
Variable safe_load : string -> result value.
(** [(datetime.now() - strptime(start, "%Y-%m-%dT%H:%M:%S.%f")).total_seconds()],
    or [ValueError] when [start] does not match the format. *)
Variable seconds_since : list event -> string -> result Q.

Definition str : value -> string := Py.str repr.

(** [SubprocessRunner.run]: [subprocess.run(cmds, check=True, ...)].  The
    launch is recorded with the tokens as [app.py] assembled them; a non-zero
    exit status is raised as [CalledProcessError].  This is what
    [subprocess.run] does when every token and the [BORG_RSH] value are
    strings; it rejects anything else before it starts a process, so the
    theorems about a launch take their tokens from strings. *)
Definition runner_run (cmds : list value) (borg_rsh : option value)
    (capture : bool) : M string :=
  fun h =>
    let h' := (h ++ [Launch cmds borg_rsh capture])%list in
    let (status, stdout) := tool h cmds borg_rsh capture in
    if status =? 0 then (Ok stdout, h')
    else (Raise (CalledProcessError status), h').

(** [SubprocessRunner.run_hook]: [subprocess.run(hook, shell=True, check=True)]. *)
Definition runner_run_hook (hook : value) : M unit :=
  fun h =>
    let h' := (h ++ [Hook hook])%list in
    let status := hook_status h hook in
    if status =? 0 then (Ok tt, h')
    else (Raise (CalledProcessError status), h').

Definition archive_template : string := "-{utcnow:%Y-%m-%dT%H:%M:%SZ}".

Definition run (action : string) (config : value) (archive : bool)
    (args : list value) (trailing_args : value) (capture_stdout : bool)
    : M string :=
  repo <- lift (Py.getitem2 config "remote" "repository") ;;
  repo <- (if archive then
             prefix <- lift (Py.getitem2 config "remote" "prefix") ;;
             lift (Py.iadd_str repo ("::" ++ str prefix ++ archive_template))
           else ret repo) ;;
  has_rsh <- lift (Py.contains_at "rsh" config "remote") ;;
  env <- (if has_rsh : bool then
            rsh <- lift (Py.getitem2 config "remote" "rsh") ;;
            ret (Some rsh)
          else ret None) ;;
  cmds <- lift (Py.list_add ([VStr "borgbackup"; VStr action] ++ args ++ [repo])
                  trailing_args) ;;
  runner_run cmds env capture_stdout.

(** One [for x in v: cmd += [flag, x]] loop. *)
Definition flag_each (flag : string) (v : value) : result (list value) :=
  rbind (Py.iter v) (fun items =>
    Ok (flat_map (fun x => [VStr flag; x]) items)).

Definition action_create (config : value) (dry_run : bool) : M unit :=
  source <- lift (Py.getitem2 config "location" "source") ;;
  let source := match source with VStr _ => VList [source] | _ => source end in
  let cmd : list value := [] in
  has <- lift (Py.contains_at "compression" config "remote") ;;
  cmd <- (if has : bool then
            c <- lift (Py.getitem2 config "remote" "compression") ;;
            ret (cmd ++ [VStr "--compression"; c])%list
          else ret cmd) ;;
  has <- lift (Py.contains_at "one_file_system" config "location") ;;
  cmd <- (if has : bool then
            v <- lift (Py.getitem2 config "location" "one_file_system") ;;
            ret (if config_is_true v then cmd ++ [VStr "--one-file-system"]
                 else cmd)%list
          else ret cmd) ;;
  has <- lift (Py.contains_at "exclude_caches" config "location") ;;
  cmd <- (if has : bool then
            v <- lift (Py.getitem2 config "location" "exclude_caches") ;;
            ret (if config_is_true v then cmd ++ [VStr "--exclude-caches"]
                 else cmd)%list
          else ret cmd) ;;
  has <- lift (Py.contains_at "exclude_if_present" config "location") ;;
  cmd <- (if has : bool then
            v <- lift (Py.getitem2 config "location" "exclude_if_present") ;;
            flags <- lift (flag_each "--exclude-if-present" v) ;;
            ret (cmd ++ flags)%list
          else ret cmd) ;;
  has <- lift (Py.contains_at "exclude" config "location") ;;
  cmd <- (if has : bool then
            v <- lift (Py.getitem2 config "location" "exclude") ;;
            flags <- lift (flag_each "--exclude" v) ;;
            ret (cmd ++ flags)%list
          else ret cmd) ;;
  let cmd := (if dry_run then cmd ++ [VStr "--dry-run"] else cmd)%list in
  run "create" config true cmd source false ;;
  ret tt.


Definition action_check_age (config : value) (max_age : Z)
    (min_size : option Z) : M unit :=
  stdout <- run "info" config false [VStr "--last"; VStr "1"; VStr "--json"]
              (VList []) true ;;
  last_backup <- lift (safe_load stdout) ;;
  let first := rbind (Py.getitem last_backup "archives") Py.getitem0 in
  start <- lift (rbind first (fun a => Py.getitem a "start")) ;;
  elapsed <- (match start with
              | VStr t => fun h => (seconds_since h t, h)
              | _ => raise TypeError
              end) ;;
  (if negb (Qle_bool elapsed (inject_Z max_age)) then
     print ("BORGBACKUP WARNING: last backup too old" ++ nl ++ nl ++ str start) ;;
     sys_exit 1
   else ret tt) ;;
  size <- lift (rbind first (fun a => Py.getitem2 a "stats" "original_size")) ;;
  small <- (match min_size with
            | None => ret false
            | Some m => if m =? 0 then ret false else lift (Py.lt_int size m)
            end) ;;
  (if small : bool then
     print ("BORGBACKUP WARNING: last backup too small" ++ nl ++ nl
            ++ str size ++ "B < "
            ++ match min_size with Some m => Py.str_of_Z m | None => "None" end
            ++ "B") ;;
     sys_exit 1
   else ret tt) ;;
  print "BORGBACKUP OK".

Definition skip_message (hook : value) : string :=
  "Not running hook " ++ dquote ++ str hook ++ dquote
  ++ " as dry run is enabled.".

(** The body shared by the two hook loops. *)
Definition hook_body (dry_run : bool) (hook : value) : M unit :=
  if dry_run then print (skip_message hook) else runner_run_hook hook.

Definition hooks_before (config : value) (dry_run : bool) : M unit :=
  has_hooks <- lift (Py.contains "hooks" config) ;;
  absent <- (if has_hooks : bool then
               has <- lift (Py.contains_at "before" config "hooks") ;;
               ret (negb has)
             else ret true) ;;
  if absent : bool then ret tt
  else
    hooks <- lift (rbind (Py.getitem2 config "hooks" "before") Py.iter) ;;
    for_each (hook_body dry_run) hooks.

Definition hooks_after (config : value) (dry_run : bool) : M unit :=
  has_hooks <- lift (Py.contains "hooks" config) ;;
  absent <- (if has_hooks : bool then
               has <- lift (Py.contains_at "after" config "hooks") ;;
               ret (negb has)
             else ret true) ;;
  if absent : bool then ret tt
  else
    hooks <- lift (rbind (Py.getitem2 config "hooks" "after") Py.iter) ;;
    for_each (hook_body dry_run) hooks.

(** One [if key in config["retention"]: cmd += [flag, str(...)]] step. *)
Definition keep (config : value) (key flag : string) (cmd : list value)
    : result (list value) :=
  rbind (Py.contains_at key config "retention") (fun has =>
    if has : bool then
      rbind (Py.getitem2 config "retention" key) (fun v =>
        Ok (cmd ++ [VStr flag; VStr (str v)])%list)
    else Ok cmd).

Definition action_prune (config : value) (dry_run : bool) : M unit :=
  let cmd := [VStr "--stats"; VStr "--list"] in
  prefix <- lift (Py.getitem2 config "remote" "prefix") ;;
  let cmd := (cmd ++ [VStr "--prefix"; prefix])%list in
  let cmd := (if dry_run then cmd ++ [VStr "--dry-run"] else cmd)%list in
  cmd <- lift (keep config "keep_last" "--keep-last" cmd) ;;
  cmd <- lift (keep config "keep_within" "--keep-within" cmd) ;;
  cmd <- lift (keep config "keep_hourly" "--keep-hourly" cmd) ;;
  cmd <- lift (keep config "keep_daily" "--keep-daily" cmd) ;;
  cmd <- lift (keep config "keep_weekly" "--keep-weekly" cmd) ;;
  cmd <- lift (keep config "keep_monthly" "--keep-monthly" cmd) ;;
  cmd <- lift (keep config "keep_yearly" "--keep-yearly" cmd) ;;
  run "prune" config false cmd (VList []) false ;;
  ret tt.

Definition CreateAction_execute (config : value) (args : Args) : M unit :=
  hooks_before config (dry_run args) ;;
  action_create config (dry_run args) ;;
  hooks_after config (dry_run args) ;;
  if negb (no_prune args) then action_prune config (dry_run args)
  else ret tt.



Definition CheckAgeAction_execute (config : value) (args : Args) : M unit :=
  let min_size :=
    match min_size args with
    | Some m => if m =? 0 then None else Some (m * 1024 * 1024)
    | None => None
    end in
  action_check_age config (max_age args * 3600) min_size.

(** ** Runs in which every process succeeds *)

(** The exit status the event [e] ends with when it happens after [h]. *)
Definition exit_status (h : list event) (e : event) : Z :=
  match e with
  | Launch cmds env capture => fst (tool h cmds env capture)
  | Hook hook => hook_status h hook
  | Print _ => 0
  end.

(** Every process of [trace], run in this order from the history [h],
    exits with status 0. *)
Fixpoint all_succeed (h : list event) (trace : list event) : Prop :=
  match trace with
  | [] => True
  | e :: trace' => exit_status h e = 0 /\ all_succeed (h ++ [e]) trace'
  end.

(** The events of the create pipeline of a policy. *)
Definition launch_of (p : BackupPolicy) (cmds : list string) : event :=
  Launch (map VStr cmds) (option_map VStr (remote_rsh p)) false.

Definition create_pipeline (p : BackupPolicy) (prune : bool) : list event :=
  map hook_event (before_hooks p)
  ++ [launch_of p (create_command p false)]
  ++ map hook_event (after_hooks p)
  ++ (if prune then [launch_of p (prune_command p false)] else []).



(** A computation that leaves the history as it found it. *)
Definition silent {A} (m : M A) : Prop :=
  forall h, snd (m h) = h.

(** ** Runs up to the first failure *)

(** The processes and lines of [trace], one after the other from the history
    [h], up to the first process that exits non-zero. *)
Fixpoint run_events (h : list event) (trace : list event)
    : result unit * list event :=
  match trace with
  | [] => (Ok tt, h)
  | e :: trace' =>
      if exit_status h e =? 0 then run_events (h ++ [e]) trace'
      else (Raise (CalledProcessError (exit_status h e)), h ++ [e])
  end.

(** What a hook contributes to the trace: its launch, or under dry-run the
    line that reports it as skipped. *)
Definition hook_step (dry : bool) (hook : string) : event :=
  if dry then Print (skip_message (VStr hook)) else hook_event hook.

(** The events of the create action of a policy, dry-run or not. *)
Definition pipeline (p : BackupPolicy) (dry prune : bool) : list event :=
  map (hook_step dry) (before_hooks p)
  ++ [launch_of p (create_command p dry)]
  ++ map (hook_step dry) (after_hooks p)
  ++ (if prune then [launch_of p (prune_command p dry)] else []).

(** A computation that launches no hook. *)
Definition hookless {A} (m : M A) : Prop :=
  forall h, exists r new,
    m h = (r, h ++ new) /\ existsb is_hook new = false.

(** A computation that does nothing but launch the tool. *)
Definition launches_only {A} (m : M A) : Prop :=
  forall h, exists r new,
    m h = (r, h ++ new) /\ forallb is_launch new = true.

(** ** Lookups and the monad *)

Lemma getitem2_get (d x : dict) (a b : string) :
  Py.get a d = Some (VDict x) ->
  Py.getitem2 (VDict d) a b = Py.getitem (VDict x) b.
Proof. intros H. unfold Py.getitem2. simpl. now rewrite H. Qed.

Lemma contains_at_get (d x : dict) (a k : string) :
  Py.get a d = Some (VDict x) ->
  Py.contains_at k (VDict d) a = Py.contains k (VDict x).
Proof. intros H. unfold Py.contains_at. simpl. now rewrite H. Qed.

Lemma getitem_get (x : dict) (b : string) (v : value) :
  Py.get b x = Some v -> Py.getitem (VDict x) b = Ok v.
Proof. intros H. simpl. now rewrite H. Qed.

(** Lookups do not see the order of the entries: a mapping (its keys are
    distinct) answers every lookup as any reordering of it does. *)
Lemma get_reordered (k : string) (d d' : dict) :
  NoDup (map fst d) -> Permutation d d' -> Py.get k d = Py.get k d'.
Proof.
  intros Hnd Hperm. induction Hperm as [|[k0 v0] d d' Hperm IH
                                        |[k1 v1] [k2 v2] d|d d1 d2 H1 IH1 H2 IH2].
  - reflexivity.
  - simpl. inversion Hnd; subst. now rewrite IH.
  - simpl. inversion Hnd as [|? ? Hin _]; subst.
    destruct (String.eqb_spec k k2) as [E2|], (String.eqb_spec k k1) as [E1|];
      try reflexivity.
    exfalso. apply Hin. left. congruence.
  - rewrite IH1 by assumption. apply IH2.
    apply (Permutation_NoDup (Permutation_map fst H1) Hnd).
Qed.

Lemma valid_policy_reordered (p : BackupPolicy) (d d' : dict) :
  NoDup (map fst d) -> Permutation d d' ->
  valid_policy p (VDict d) -> valid_policy p (VDict d').
Proof.
  intros Hnd Hperm (Hrem & Hloc & Hret & Hhooks).
  assert (E : forall k, Py.get k d' = Py.get k d).
  { intros k. symmetry. now apply get_reordered. }
  repeat split.
  - destruct Hrem as (d0 & r & [= <-] & H). exists d', r. now rewrite E.
  - destruct Hloc as (d0 & l & [= <-] & H). exists d', l. now rewrite E.
  - destruct Hret as (d0 & t & [= <-] & H). exists d', t. now rewrite E.
  - destruct Hhooks as (d0 & [= <-] & Hb & Ha). exists d'.
    unfold has_hook_list in *. now rewrite E.
Qed.

Lemma bind_lift_ok {A B} (a : A) (k : A -> M B) (h : list event) :
  bind (lift (Ok a)) k h = k a h.
Proof. reflexivity. Qed.

Lemma bind_ret {A B} (a : A) (k : A -> M B) (h : list event) :
  bind (ret a) k h = k a h.
Proof. reflexivity. Qed.

Lemma flat_map_strs (flag : string) (l : list string) :
  flat_map (fun x => [VStr flag; x]) (map VStr l)
  = map VStr (flat_map (fun x => [flag; x]) l).
Proof. induction l as [|x l IH]; simpl; [reflexivity | now rewrite IH]. Qed.

Lemma flag_each_strs (flag : string) (l : list string) :
  flag_each flag (strs l) = Ok (map VStr (flat_map (fun x => [flag; x]) l)).
Proof. unfold flag_each, strs. simpl. now rewrite flat_map_strs. Qed.

(** The three shapes of optional flag in [action_create], each seen as one
    step that extends the command built so far. *)
Lemma step_opt_value {B} (x : dict) (key flag : string) (o : option value)
    (cmd : list value) (k : list value -> M B) (h : list event) :
  Py.get key x = o ->
  (has <- lift (Py.contains key (VDict x)) ;;
   cmd' <- (if has : bool then
              c <- lift (Py.getitem (VDict x) key) ;;
              ret (cmd ++ [VStr flag; c])%list
            else ret cmd) ;;
   k cmd') h
  = k (cmd ++ match o with Some c => [VStr flag; c] | None => [] end) h.
Proof.
  intros H. cbn [Py.contains Py.getitem]. rewrite H.
  destruct o; simpl; unfold bind, lift, ret; simpl;
    [reflexivity | now rewrite app_nil_r].
Qed.

Lemma step_opt_flag {B} (x : dict) (key flag : string) (o : option string)
    (cmd : list value) (k : list value -> M B) (h : list event) :
  Py.get key x = option_map VStr o ->
  (has <- lift (Py.contains key (VDict x)) ;;
   cmd' <- (if has : bool then
              c <- lift (Py.getitem (VDict x) key) ;;
              ret (cmd ++ [VStr flag; c])%list
            else ret cmd) ;;
   k cmd') h
  = k (cmd ++ map VStr (opt_flag flag o))%list h.
Proof.
  intros H. rewrite (step_opt_value _ _ _ _ _ _ _ H). now destruct o.
Qed.

Lemma step_truthy_flag {B} (x : dict) (key flag : string) (o : option value)
    (cmd : list value) (k : list value -> M B) (h : list event) :
  Py.get key x = o ->
  (has <- lift (Py.contains key (VDict x)) ;;
   cmd' <- (if has : bool then
              v <- lift (Py.getitem (VDict x) key) ;;
              ret (if config_is_true v then cmd ++ [VStr flag] else cmd)%list
            else ret cmd) ;;
   k cmd') h
  = k (cmd ++ map VStr (if truthy o then [flag] else []))%list h.
Proof.
  intros H. cbn [Py.contains Py.getitem]. rewrite H.
  destruct o as [v|]; simpl; unfold bind, lift, ret; simpl;
    [destruct (config_is_true v); simpl|]; now rewrite ?app_nil_r.
Qed.

Lemma step_each_flag {B} (x : dict) (key flag : string)
    (o : option (list string))
    (cmd : list value) (k : list value -> M B) (h : list event) :
  Py.get key x = option_map strs o ->
  (has <- lift (Py.contains key (VDict x)) ;;
   cmd' <- (if has : bool then
              v <- lift (Py.getitem (VDict x) key) ;;
              flags <- lift (flag_each flag v) ;;
              ret (cmd ++ flags)%list
            else ret cmd) ;;
   k cmd') h
  = k (cmd ++ map VStr (each_flag flag o))%list h.
Proof.
  intros H. cbn [Py.contains Py.getitem]. rewrite H.
  destruct o as [l|]; cbn [option_map each_flag]; unfold bind, lift, ret;
    cbn beta iota.
  - now rewrite flag_each_strs.
  - simpl. now rewrite app_nil_r.
Qed.

Lemma runner_run_unit (cmds : list value) (env : option value) (c : bool)
    (h : list event) :
  (runner_run cmds env c ;; ret tt) h
  = (launched (fst (tool h cmds env c)), (h ++ [Launch cmds env c])%list).
Proof.
  unfold bind, runner_run, launched, ret.
  destruct (tool h cmds env c) as [status out]; simpl.
  now destruct (status =? 0).
Qed.

Lemma bind_congr {A B} (m m' : M A) (k : A -> M B) (h : list event) :
  m h = m' h -> bind m k h = bind m' k h.
Proof. intros E. unfold bind. now rewrite E. Qed.

(** [run] on a document that carries the remote part of a policy. *)
Lemma run_policy (p : BackupPolicy) (config : value) (action : string)
    (archive : bool) (args trailing : list value) (capture : bool)
    (h : list event) :
  has_remote p config ->
  run action config archive args (VList trailing) capture h
  = runner_run
      ([VStr "borgbackup"; VStr action] ++ args
       ++ [VStr (repository_argument p archive)] ++ trailing)
      (option_map VStr (remote_rsh p)) capture h.
Proof.
  intros (d & r & -> & Hr & Hrepo & Hpre & Hcomp & Hrsh).
  unfold run.
  rewrite !(getitem2_get _ _ _ _ Hr), !(contains_at_get _ _ _ _ Hr).
  rewrite (getitem_get _ _ _ Hrepo), (getitem_get _ _ _ Hpre).
  cbn [Py.contains]. rewrite Hrsh, bind_lift_ok.
  assert (E : forall a b c : list value, forall x : value,
             (a ++ b ++ [x])%list ++ c = a ++ b ++ [x] ++ c).
  { intros. now rewrite <- !app_assoc. }
  destruct archive, (remote_rsh p);
    cbn [Py.getitem option_map] in *; rewrite ?Hrsh;
    unfold bind, lift, ret; cbn -[app String.append];
    now rewrite E.
Qed.

Lemma action_create_policy (p : BackupPolicy) (config : value)
    (dry : bool) (h : list event) :
  has_remote p config -> has_location p config ->
  action_create config dry h
  = (runner_run (map VStr (create_command p dry))
       (option_map VStr (remote_rsh p)) false ;;
     ret tt) h.
Proof.
  intros Hrem. pose proof Hrem as (d & r & -> & Hr & Hrepo & Hpre & Hcomp & Hrsh).
  intros (d' & l & E & Hl & Hsrc & Hofs & Hec & Heip & Hex).
  injection E as <-.
  unfold action_create.
  rewrite !(getitem2_get _ _ _ _ Hl), !(getitem2_get _ _ _ _ Hr).
  rewrite !(contains_at_get _ _ _ _ Hl), !(contains_at_get _ _ _ _ Hr).
  rewrite (getitem_get _ _ _ Hsrc), bind_lift_ok.
  rewrite (step_opt_flag _ _ _ _ _ _ _ Hcomp).
  rewrite (step_truthy_flag _ _ _ _ _ _ _ Hofs).
  rewrite (step_truthy_flag _ _ _ _ _ _ _ Hec).
  rewrite (step_each_flag _ _ _ _ _ _ _ Heip).
  rewrite (step_each_flag _ _ _ _ _ _ _ Hex).
  assert (Esrc : match sources_value (location_source p) with
                 | VStr _ => VList [sources_value (location_source p)]
                 | _ => sources_value (location_source p)
                 end = VList (map VStr (source_paths (location_source p)))).
  { now destruct (location_source p). }
  rewrite Esrc.
  erewrite bind_congr by (apply run_policy; exact Hrem).
  assert (Ecmd :
    ([VStr "borgbackup"; VStr "create"] ++
     (if dry
      then
        (((((([] ++
          map VStr (opt_flag "--compression" (remote_compression p))) ++
          map VStr (if truthy (location_one_file_system p)
                    then ["--one-file-system"] else [])) ++
          map VStr (if truthy (location_exclude_caches p)
                    then ["--exclude-caches"] else [])) ++
          map VStr (each_flag "--exclude-if-present"
                      (location_exclude_if_present p))) ++
          map VStr (each_flag "--exclude" (location_exclude p))) ++
          [VStr "--dry-run"])
      else
        ((((([] ++
          map VStr (opt_flag "--compression" (remote_compression p))) ++
          map VStr (if truthy (location_one_file_system p)
                    then ["--one-file-system"] else [])) ++
          map VStr (if truthy (location_exclude_caches p)
                    then ["--exclude-caches"] else [])) ++
          map VStr (each_flag "--exclude-if-present"
                      (location_exclude_if_present p))) ++
          map VStr (each_flag "--exclude" (location_exclude p)))) ++
     [VStr (repository_argument p true)] ++
     map VStr (source_paths (location_source p)))%list
    = map VStr (create_command p dry)).
  { unfold create_command. rewrite !map_app.
    destruct dry; rewrite <- ?app_assoc; reflexivity. }
  now rewrite Ecmd.
Qed.

Lemma str_amount (a : amount) : str (amount_value a) = amount_text a.
Proof. now destruct a. Qed.

(** One retention step of [action_prune] on a document that carries the
    retention part of a policy. *)
Lemma keep_policy (p : BackupPolicy) (d t : dict) (k : retention_kind)
    (key flag : string) (cmd : list value) :
  Py.get "retention" d = Some (VDict t) ->
  (forall k, Py.get (kind_key k) t = option_map amount_value (retention p k)) ->
  key = kind_key k -> flag = kind_flag k ->
  keep (VDict d) key flag cmd = Ok (cmd ++ map VStr (keep_flag p k)).
Proof.
  intros Ht Hk -> ->. unfold keep, keep_flag.
  rewrite (contains_at_get _ _ _ _ Ht), (getitem2_get _ _ _ _ Ht).
  cbn [Py.contains Py.getitem rbind]. rewrite Hk.
  destruct (retention p k) as [a|]; cbn [option_map rbind map].
  - now rewrite str_amount.
  - now rewrite app_nil_r.
Qed.

Lemma action_prune_policy (p : BackupPolicy) (config : value)
    (dry : bool) (h : list event) :
  has_remote p config -> has_retention p config ->
  action_prune config dry h
  = (runner_run (map VStr (prune_command p dry))
       (option_map VStr (remote_rsh p)) false ;;
     ret tt) h.
Proof.
  intros Hrem. pose proof Hrem as (d & r & -> & Hr & Hrepo & Hpre & _).
  intros (d' & t & E & Ht & Hk). injection E as <-.
  unfold action_prune.
  rewrite (getitem2_get _ _ _ _ Hr), (getitem_get _ _ _ Hpre), bind_lift_ok.
  rewrite (keep_policy p d t keep_last _ _ _ Ht Hk eq_refl eq_refl), bind_lift_ok.
  rewrite (keep_policy p d t keep_within _ _ _ Ht Hk eq_refl eq_refl), bind_lift_ok.
  rewrite (keep_policy p d t keep_hourly _ _ _ Ht Hk eq_refl eq_refl), bind_lift_ok.
  rewrite (keep_policy p d t keep_daily _ _ _ Ht Hk eq_refl eq_refl), bind_lift_ok.
  rewrite (keep_policy p d t keep_weekly _ _ _ Ht Hk eq_refl eq_refl), bind_lift_ok.
  rewrite (keep_policy p d t keep_monthly _ _ _ Ht Hk eq_refl eq_refl), bind_lift_ok.
  rewrite (keep_policy p d t keep_yearly _ _ _ Ht Hk eq_refl eq_refl), bind_lift_ok.
  erewrite bind_congr by (apply run_policy; exact Hrem).
  match goal with
  | |- bind (runner_run ?c _ _) _ _ = _ =>
      assert (Ecmd : c = map VStr (prune_command p dry))
  end.
  { unfold prune_command, retention_kinds. cbn [flat_map].
    rewrite !map_app.
    destruct dry; rewrite <- ?app_assoc, ?app_nil_r; reflexivity. }
  now rewrite Ecmd.
Qed.

(** ** The hook loops *)

Lemma bind_ok {A B} (m : M A) (k : A -> M B) (h h' : list event) (a : A) :
  m h = (Ok a, h') -> bind m k h = k a h'.
Proof. intros E. unfold bind. now rewrite E. Qed.

Lemma bind_raise {A B} (m : M A) (k : A -> M B) (h h' : list event)
    (e : exn) :
  m h = (Raise e, h') -> bind m k h = (Raise e, h').
Proof. intros E. unfold bind. now rewrite E. Qed.

Lemma all_succeed_app (h a b : list event) :
  all_succeed h (a ++ b) <-> all_succeed h a /\ all_succeed (h ++ a) b.
Proof.
  revert h. induction a as [|e a IH]; intros h; simpl.
  - rewrite app_nil_r. split; [intros H; now split | now intros [_ H]].
  - rewrite IH, <- app_assoc. simpl.
    split; [intros (A & B & C) | intros ((A & B) & C)]; repeat split;
      assumption.
Qed.

Lemma hooks_policy (which : string) (hooks : list string) (d : dict)
    (dry : bool) (h : list event) :
  has_hook_list which hooks d ->
  (has_hooks <- lift (Py.contains "hooks" (VDict d)) ;;
   absent <- (if has_hooks : bool then
                has <- lift (Py.contains_at which (VDict d) "hooks") ;;
                ret (negb has)
              else ret true) ;;
   if absent : bool then ret tt
   else
     hooks <- lift (rbind (Py.getitem2 (VDict d) "hooks" which) Py.iter) ;;
     for_each (hook_body dry) hooks) h
  = for_each (hook_body dry) (map VStr hooks) h.
Proof.
  unfold has_hook_list, Py.contains_at, Py.getitem2.
  cbn [Py.contains Py.getitem rbind].
  destruct (Py.get "hooks" d) as [[| | | | |?|hk]|]; try contradiction.
  - cbn [rbind Py.contains Py.getitem].
    destruct (Py.get which hk) as [v|]; intros ->; reflexivity.
  - intros ->. reflexivity.
Qed.

Lemma hooks_before_policy (p : BackupPolicy) (config : value) (dry : bool)
    (h : list event) :
  has_hooks p config ->
  hooks_before config dry h
  = for_each (hook_body dry) (map VStr (before_hooks p)) h.
Proof. intros (d & -> & Hb & _). now apply hooks_policy. Qed.

Lemma hooks_after_policy (p : BackupPolicy) (config : value) (dry : bool)
    (h : list event) :
  has_hooks p config ->
  hooks_after config dry h
  = for_each (hook_body dry) (map VStr (after_hooks p)) h.
Proof. intros (d & -> & _ & Ha). now apply hooks_policy. Qed.

Lemma hook_ok (x : string) (h : list event) :
  exit_status h (hook_event x) = 0 ->
  hook_body false (VStr x) h = (Ok tt, h ++ [hook_event x]).
Proof.
  unfold hook_body, runner_run_hook, hook_event. simpl.
  intros ->. reflexivity.
Qed.

(** Hooks that all succeed are each launched, in order. *)
Lemma hooks_run (hooks : list string) (h : list event) :
  all_succeed h (map hook_event hooks) ->
  for_each (hook_body false) (map VStr hooks) h
  = (Ok tt, h ++ map hook_event hooks).
Proof.
  revert h. induction hooks as [|x hooks IH]; intros h;
    cbn [for_each map all_succeed].
  - intros _. unfold ret. now rewrite app_nil_r.
  - intros [E H].
    rewrite (bind_ok _ _ _ _ _ (hook_ok _ _ E)), (IH _ H), <- app_assoc.
    reflexivity.
Qed.

(** The first hook that fails stops the loop, and its status is raised. *)
Lemma hooks_stop (pre post : list string) (bad : string) (h : list event) :
  all_succeed h (map hook_event pre) ->
  hook_status (h ++ map hook_event pre) (VStr bad) <> 0 ->
  for_each (hook_body false) (map VStr (pre ++ bad :: post)) h
  = (Raise (CalledProcessError
             (hook_status (h ++ map hook_event pre) (VStr bad))),
     h ++ map hook_event pre ++ [hook_event bad]).
Proof.
  revert h. induction pre as [|x pre IH]; intros h;
    cbn [for_each map all_succeed app].
  - intros _ Hbad. rewrite app_nil_r in *.
    apply bind_raise. unfold hook_body, runner_run_hook.
    destruct (Z.eqb_spec (hook_status h (VStr bad)) 0); [contradiction|].
    reflexivity.
  - intros [E H] Hbad.
    rewrite (bind_ok _ _ _ _ _ (hook_ok _ _ E)).
    change (h ++ hook_event x :: map hook_event pre)
      with (h ++ [hook_event x] ++ map hook_event pre) in Hbad |- *.
    rewrite app_assoc in Hbad |- *.
    rewrite (IH _ H Hbad), <- !app_assoc. reflexivity.
Qed.

(** ** The create pipeline *)

Lemma launch_ok (p : BackupPolicy) (cmds : list string) (h : list event) :
  exit_status h (launch_of p cmds) = 0 ->
  (launched (fst (tool h (map VStr cmds) (option_map VStr (remote_rsh p)) false)),
   h ++ [Launch (map VStr cmds) (option_map VStr (remote_rsh p)) false])
  = (Ok tt, h ++ [launch_of p cmds]).
Proof. simpl. intros ->. reflexivity. Qed.

Lemma create_pipeline_runs (p : BackupPolicy) (config : value) (args : Args)
    (h : list event) :
  valid_policy p config -> dry_run args = false ->
  all_succeed h (create_pipeline p (negb (no_prune args))) ->
  CreateAction_execute config args h
  = (Ok tt, h ++ create_pipeline p (negb (no_prune args))).
Proof.
  intros (Hrem & Hloc & Hret & Hhooks) Hdry.
  unfold create_pipeline, CreateAction_execute. rewrite Hdry.
  rewrite !all_succeed_app. intros (Hb & Hc & Ha & Hp).
  destruct Hc as [Hc _]. rewrite ?app_assoc in Ha, Hp.
  set (h1 := h ++ map hook_event (before_hooks p)) in *.
  set (h2 := h1 ++ [launch_of p (create_command p false)]) in *.
  set (h3 := h2 ++ map hook_event (after_hooks p)) in *.
  assert (E1 : hooks_before config false h = (Ok tt, h1)).
  { rewrite (hooks_before_policy p) by assumption. now apply hooks_run. }
  assert (E2 : action_create config false h1 = (Ok tt, h2)).
  { rewrite (action_create_policy p), runner_run_unit by assumption.
    now apply launch_ok. }
  assert (E3 : hooks_after config false h2 = (Ok tt, h3)).
  { rewrite (hooks_after_policy p) by assumption. now apply hooks_run. }
  rewrite (bind_ok _ _ _ _ _ E1), (bind_ok _ _ _ _ _ E2),
    (bind_ok _ _ _ _ _ E3).
  rewrite !app_assoc. fold h1 h2 h3.
  destruct (no_prune args); cbn [negb] in *.
  - unfold ret. now rewrite app_nil_r.
  - destruct Hp as [Hp _].
    rewrite (action_prune_policy p), runner_run_unit by assumption.
    now apply launch_ok.
Qed.

(** ** Failing before anything is launched *)

Lemma silent_lift {A} (r : result A) : silent (lift r).
Proof. intros h. reflexivity. Qed.

Lemma silent_ret {A} (a : A) : silent (ret a).
Proof. intros h. reflexivity. Qed.

Lemma silent_bind {A B} (m : M A) (k : A -> M B) :
  silent m -> (forall a, silent (k a)) -> silent (bind m k).
Proof.
  intros Hm Hk h. unfold bind. specialize (Hm h).
  destruct (m h) as [[a|e] h']; simpl in Hm; subst h'; [apply Hk|reflexivity].
Qed.




Ltac silent_tac :=
  repeat first
    [ apply silent_lift
    | apply silent_ret
    | apply silent_bind; [|intros ?]
    | match goal with |- silent (if ?b then _ else _) => destruct b end ].


Lemma getitem2_lacks (config : value) (a b : string) :
  lacks config a b -> exists k, Py.getitem2 config a b = Raise (KeyError k).
Proof.
  intros (d & -> & [H | (x & H & Hb)]); unfold Py.getitem2; simpl; rewrite H;
    simpl; [|rewrite Hb]; eauto.
Qed.











(** ** Replacing [location.source] *)

Lemma get_set_same (k : string) (v : value) (d : dict) :
  Py.get k (Py.set k v d) = Some v.
Proof.
  induction d as [|[k' v'] d IH]; simpl.
  - now rewrite String.eqb_refl.
  - destruct (String.eqb k k') eqn:E; simpl; rewrite E; auto.
Qed.

Lemma get_set_other (k k' : string) (v : value) (d : dict) :
  String.eqb k' k = false -> Py.get k' (Py.set k v d) = Py.get k' d.
Proof.
  intros Hk. induction d as [|[k0 v0] d IH]; simpl.
  - now rewrite Hk.
  - destruct (String.eqb k k0) eqn:E; simpl.
    + apply String.eqb_eq in E. subst k0. now rewrite Hk.
    + now rewrite IH.
Qed.

Lemma source_present (config s0 : value) :
  Py.getitem2 config "location" "source" = Ok s0 ->
  exists d l, config = VDict d /\ Py.get "location" d = Some (VDict l) /\
              Py.get "source" l = Some s0.
Proof.
  unfold Py.getitem2. destruct config as [| | | | | |d]; try discriminate.
  simpl. destruct (Py.get "location" d) as [[| | | | | |l]|] eqn:Hl;
    try discriminate.
  simpl. destruct (Py.get "source" l) eqn:Hs; try discriminate.
  intros [= ->]. eauto.
Qed.

Lemma getitem2_with_source (config s0 v : value) (a b : string) :
  Py.getitem2 config "location" "source" = Ok s0 ->
  String.eqb a "location" && String.eqb b "source" = false ->
  Py.getitem2 (with_source config v) a b = Py.getitem2 config a b.
Proof.
  intros H Hab. destruct (source_present _ _ H) as (d & l & -> & Hl & Hs).
  unfold with_source, Py.getitem2. rewrite Hl. cbn [Py.getitem rbind].
  destruct (String.eqb a "location") eqn:Ea.
  - apply String.eqb_eq in Ea. subst a. rewrite get_set_same, Hl.
    cbn [Py.getitem rbind]. simpl in Hab. now rewrite get_set_other.
  - now rewrite get_set_other.
Qed.

Lemma contains_at_with_source (config s0 v : value) (k a : string) :
  Py.getitem2 config "location" "source" = Ok s0 ->
  Py.contains_at k (with_source config v) a = Py.contains_at k config a.
Proof.
  intros H. destruct (source_present _ _ H) as (d & l & -> & Hl & Hs).
  unfold with_source, Py.contains_at. rewrite Hl. cbn [Py.getitem rbind].
  destruct (String.eqb a "location") eqn:Ea.
  - apply String.eqb_eq in Ea. subst a. rewrite get_set_same, Hl.
    cbn [Py.contains rbind].
    destruct (String.eqb k "source") eqn:Ek.
    + apply String.eqb_eq in Ek. subst k. now rewrite get_set_same, Hs.
    + now rewrite get_set_other.
  - now rewrite get_set_other.
Qed.

Lemma source_with_source (config s0 v : value) :
  Py.getitem2 config "location" "source" = Ok s0 ->
  Py.getitem2 (with_source config v) "location" "source" = Ok v.
Proof.
  intros H. destruct (source_present _ _ H) as (d & l & -> & Hl & Hs).
  unfold with_source, Py.getitem2. rewrite Hl. cbn [Py.getitem rbind].
  rewrite get_set_same. cbn [Py.getitem rbind]. now rewrite get_set_same.
Qed.

(** ** The monitoring check *)

(** The status query of a policy whose tool run succeeds with output [out]. *)
Lemma info_run (p : BackupPolicy) (config : value) (h : list event)
    (out : string) :
  has_remote p config ->
  tool h (info_command p) (option_map VStr (remote_rsh p)) true = (0, out) ->
  run "info" config false [VStr "--last"; VStr "1"; VStr "--json"]
    (VList []) true h
  = (Ok out,
     h ++ [Launch (info_command p) (option_map VStr (remote_rsh p)) true]).
Proof.
  intros Hrem Htool. rewrite (run_policy p) by assumption.
  unfold runner_run, info_command in *. cbn [app map] in *.
  now rewrite Htool.
Qed.

Lemma check_age_decision (p : BackupPolicy) (config report : value)
    (max : Z) (min : option Z) (h : list event) (out start : string)
    (size : Z) (elapsed : Q) :
  let h1 :=
    h ++ [Launch (info_command p) (option_map VStr (remote_rsh p)) true] in
  has_remote p config ->
  tool h (info_command p) (option_map VStr (remote_rsh p)) true = (0, out) ->
  safe_load out = Ok report ->
  latest_archive report start size ->
  seconds_since h1 start = Ok elapsed ->
  action_check_age config max min h
  = if negb (Qle_bool elapsed (inject_Z max)) then
      (Raise (SystemExit 1), h1 ++ [Print (too_old_message start)])
    else
      match min with
      | Some m =>
          if negb (m =? 0) && (size <? m) then
            (Raise (SystemExit 1), h1 ++ [Print (too_small_message size m)])
          else (Ok tt, h1 ++ [Print ok_message])
      | None => (Ok tt, h1 ++ [Print ok_message])
      end.
Proof.
  intros h1 Hrem Htool Hload (d & rest & a & st & -> & Ha & Hs & Hst & Hsz)
    Hclock.
  unfold action_check_age.
  rewrite (bind_ok _ _ _ _ _ (info_run p config h out Hrem Htool)).
  fold h1. rewrite Hload, bind_lift_ok.
  unfold Py.getitem2.
  do 4 (cbn [Py.getitem Py.getitem0 rbind]; rewrite ?Ha, ?Hs, ?Hst, ?Hsz).
  rewrite bind_lift_ok.
  unfold bind at 1. rewrite Hclock.
  destruct (negb (Qle_bool elapsed (inject_Z max))); [reflexivity|].
  rewrite bind_ret, bind_lift_ok.
  destruct min as [m|]; [|reflexivity].
  destruct (m =? 0); [reflexivity|].
  cbn [negb andb Py.lt_int]. rewrite bind_lift_ok.
  destruct (size <? m); reflexivity.
Qed.

(** A report that cannot be read fails at the lookup that misses, after the
    status query and before anything is printed. *)
Lemma check_age_unreadable (p : BackupPolicy) (config : value)
    (max : Z) (min : option Z) (h : list event) (out : string) (d : dict) :
  let h1 :=
    h ++ [Launch (info_command p) (option_map VStr (remote_rsh p)) true] in
  has_remote p config ->
  tool h (info_command p) (option_map VStr (remote_rsh p)) true = (0, out) ->
  safe_load out = Ok (VDict d) ->
  (Py.get "archives" d = Some (VList []) ->
   action_check_age config max min h = (Raise IndexError, h1)) /\
  (Py.get "archives" d = None ->
   action_check_age config max min h = (Raise (KeyError "archives"), h1)).
Proof.
  intros h1 Hrem Htool Hload.
  split; intros Ha; unfold action_check_age;
    rewrite (bind_ok _ _ _ _ _ (info_run p config h out Hrem Htool));
    fold h1; rewrite Hload, bind_lift_ok;
    cbn [Py.getitem Py.getitem0 rbind]; rewrite Ha; reflexivity.
Qed.

(** A record without [stats] is only found out when the age check passes. *)
Lemma check_age_no_stats (p : BackupPolicy) (config : value)
    (max : Z) (min : option Z) (h : list event) (out start : string)
    (d a : dict) (rest : list value) (elapsed : Q) :
  let h1 :=
    h ++ [Launch (info_command p) (option_map VStr (remote_rsh p)) true] in
  has_remote p config ->
  tool h (info_command p) (option_map VStr (remote_rsh p)) true = (0, out) ->
  safe_load out = Ok (VDict d) ->
  Py.get "archives" d = Some (VList (VDict a :: rest)) ->
  Py.get "start" a = Some (VStr start) ->
  Py.get "stats" a = None ->
  seconds_since h1 start = Ok elapsed ->
  action_check_age config max min h
  = if negb (Qle_bool elapsed (inject_Z max)) then
      (Raise (SystemExit 1), h1 ++ [Print (too_old_message start)])
    else (Raise (KeyError "stats"), h1).
Proof.
  intros h1 Hrem Htool Hload Ha Hs Hst Hclock.
  unfold action_check_age.
  rewrite (bind_ok _ _ _ _ _ (info_run p config h out Hrem Htool)).
  fold h1. rewrite Hload, bind_lift_ok.
  unfold Py.getitem2.
  do 4 (cbn [Py.getitem Py.getitem0 rbind]; rewrite ?Ha, ?Hs, ?Hst).
  rewrite bind_lift_ok.
  unfold bind at 1. rewrite Hclock.
  destruct (negb (Qle_bool elapsed (inject_Z max))); reflexivity.
Qed.


(** ** The coercion, case by case *)

Lemma lower_yes : lower "yes" = "yes".
Proof. reflexivity. Qed.

Lemma lower_true : lower "true" = "true".
Proof. reflexivity. Qed.

Lemma config_is_true_str (s : string) :
  config_is_true (VStr s) = true
  <-> same_ignoring_case s "yes" \/ same_ignoring_case s "true".
Proof.
  unfold same_ignoring_case. rewrite lower_yes, lower_true.
  unfold config_is_true. cbn [Py.eq_one].
  rewrite <- !String.eqb_eq.
  destruct (String.eqb (lower s) "yes"), (String.eqb (lower s) "true");
    simpl; (split; [auto | intros [H|H]; auto]).
Qed.

(** ** The specification's claims *)

(** C1. For every policy, however the keys of its document are ordered,
    [action_create] launches exactly the command line made of the tool
    name, [create], then [--compression <value>] if set,
    [--one-file-system] and [--exclude-caches] if truthy, one
    [--exclude-if-present <entry>] and one [--exclude <entry>] pair per
    entry in document order, [--dry-run] if requested, the repository
    argument [repository::prefix-<timestamp placeholder>], and the source
    paths. *)
Theorem create_command_compiled (p : BackupPolicy) (config : value)
    (dry : bool) (h : list event) :
  has_remote p config -> has_location p config ->
  let cmds := map VStr (create_command p dry) in
  let env := option_map VStr (remote_rsh p) in
  action_create config dry h
  = (launched (fst (tool h cmds env false)), h ++ [Launch cmds env false]).
Proof.
  intros Hrem Hloc cmds env.
  rewrite (action_create_policy p config dry h Hrem Hloc).
  apply runner_run_unit.
Qed.

(** C2. For every policy, [action_prune] launches the command line that
    begins [--stats --list --prefix <prefix>], then [--dry-run] exactly when
    requested, then one [--keep-<kind> <value>] pair for each retention key
    present, and only those, in the canonical order, and ends with the bare
    repository. *)
Theorem prune_command_compiled (p : BackupPolicy) (config : value)
    (dry : bool) (h : list event) :
  has_remote p config -> has_retention p config ->
  let cmds := map VStr (prune_command p dry) in
  let env := option_map VStr (remote_rsh p) in
  action_prune config dry h
  = (launched (fst (tool h cmds env false)), h ++ [Launch cmds env false]).
Proof.
  intros Hrem Hret cmds env.
  rewrite (action_prune_policy p config dry h Hrem Hret).
  apply runner_run_unit.
Qed.

(** C4. When a before-hook exits non-zero (dry-run off), the create action
    stops at that hook: the hooks before it have run, nothing runs after it
    (no further hook, no create, no prune), and the action ends with the
    hook's exit status as a [CalledProcessError]. *)
Theorem failing_before_hook_aborts_create (p : BackupPolicy)
    (config : value) (args : Args) (h : list event)
    (pre post : list string) (bad : string) :
  has_hooks p config -> dry_run args = false ->
  before_hooks p = pre ++ bad :: post ->
  all_succeed h (map hook_event pre) ->
  hook_status (h ++ map hook_event pre) (VStr bad) <> 0 ->
  CreateAction_execute config args h
  = (Raise (CalledProcessError
             (hook_status (h ++ map hook_event pre) (VStr bad))),
     h ++ map hook_event pre ++ [hook_event bad]).
Proof.
  intros Hhooks Hdry Hsplit Hpre Hbad.
  unfold CreateAction_execute. rewrite Hdry.
  apply bind_raise.
  rewrite (hooks_before_policy p) by assumption.
  rewrite Hsplit. now apply hooks_stop.
Qed.

(** C5. For a report with a most recent archive: the check prints OK and
    returns (exit code 0) when the elapsed time is at most [max_age] and
    [min_size] is absent or at most the archive's size; it prints the
    too-old warning and exits with code 1 whenever the elapsed time exceeds
    [max_age], whatever the size; it prints the too-small warning and exits
    with code 1 when the age check passed and the size is below a
    [min_size] other than 0; and it prints that warning only when the age
    check passed and the size is below [min_size]. *)
Theorem check_age_verdicts (p : BackupPolicy) (config report : value)
    (max : Z) (min : option Z) (h : list event) (out start : string)
    (size : Z) (elapsed : Q) :
  let h1 :=
    h ++ [Launch (info_command p) (option_map VStr (remote_rsh p)) true] in
  let outcome := action_check_age config max min h in
  has_remote p config ->
  tool h (info_command p) (option_map VStr (remote_rsh p)) true = (0, out) ->
  safe_load out = Ok report ->
  latest_archive report start size ->
  seconds_since h1 start = Ok elapsed ->
  ((elapsed <= inject_Z max)%Q ->
   min = None \/ (exists m, min = Some m /\ m <= size) ->
   outcome = (Ok tt, h1 ++ [Print ok_message])) /\
  ((inject_Z max < elapsed)%Q ->
   outcome = (Raise (SystemExit 1), h1 ++ [Print (too_old_message start)])) /\
  (forall m,
     (elapsed <= inject_Z max)%Q -> min = Some m -> m <> 0 -> size < m ->
     outcome
     = (Raise (SystemExit 1), h1 ++ [Print (too_small_message size m)])) /\
  (forall r text,
     outcome = (r, h1 ++ [Print (too_small_prefix ++ text)]) ->
     r = Raise (SystemExit 1) /\ (elapsed <= inject_Z max)%Q /\
     exists m, min = Some m /\ size < m).
Proof.
  intros h1 outcome Hrem Htool Hload Hlatest Hclock. subst outcome.
  rewrite (check_age_decision p config report max min h out start size
             elapsed Hrem Htool Hload Hlatest Hclock).
  fold h1.
  assert (Hclash : forall text line,
    (String.eqb line ok_message || String.eqb line (too_old_message start)
     = true) ->
    h1 ++ [Print line] = h1 ++ [Print (too_small_prefix ++ text)] -> False).
  { intros text line Hline E. apply app_inv_head in E.
    injection E as E. subst line. cbn in Hline. discriminate Hline. }
  split; [|split; [|split]].
  - intros Hle Hmin. apply Qle_bool_iff in Hle. rewrite Hle. cbn [negb].
    destruct Hmin as [-> | (m & -> & Hm)]; [reflexivity|].
    destruct (m =? 0); [reflexivity|]. cbn [negb andb].
    destruct (Z.ltb_spec size m); [lia | reflexivity].
  - intros Hold. destruct (Qle_bool elapsed (inject_Z max)) eqn:Hage.
    + apply Qle_bool_iff in Hage. exfalso. apply (Qlt_not_le _ _ Hold Hage).
    + reflexivity.
  - intros m Hle -> Hm Hlt. apply Qle_bool_iff in Hle. rewrite Hle.
    cbn [negb].
    destruct (Z.eqb_spec m 0); [contradiction|]. cbn [negb andb].
    destruct (Z.ltb_spec size m); [reflexivity | lia].
  - intros r text.
    destruct (Qle_bool elapsed (inject_Z max)) eqn:Hage; cbn [negb].
    + apply Qle_bool_iff in Hage. destruct min as [m|].
      * destruct (negb (m =? 0) && (size <? m)) eqn:Hsmall.
        -- intros [= <- _]. repeat split; [exact Hage|].
           exists m. split; [reflexivity|].
           apply andb_prop in Hsmall. now apply Z.ltb_lt.
        -- intros [= _ E]. exfalso. apply (Hclash text ok_message); auto.
      * intros [= _ E]. exfalso. apply (Hclash text ok_message); auto.
    + intros [= _ E]. exfalso.
      apply (Hclash text (too_old_message start)); [|exact E].
      now rewrite String.eqb_refl, orb_true_r.
Qed.

(** C6 (amended). A value coerces to true exactly when it is the boolean
    [True], a string equal to "yes" or "true" up to case, or a number equal
    to 1: the integer [1] or the float [1.0]; every other value, among them
    [0], any other string and [None], coerces to false. *)
Theorem config_is_true_exactly (v : value) :
  config_is_true v = true
  <-> v = VBool true
      \/ (exists s, v = VStr s /\
                    (same_ignoring_case s "yes" \/ same_ignoring_case s "true"))
      \/ v = VInt 1
      \/ (exists q, v = VFloat (FFinite q) /\ (q == 1)%Q).
Proof.
  destruct v as [|b|z|f|s|l|d].
  - simpl. split; [discriminate|].
    intros [H|[(s & H & _)|[H|(q & H & _)]]]; discriminate.
  - simpl. split; [intros ->; now left|].
    intros [H|[(s & H & _)|[H|(q & H & _)]]]; try discriminate.
    now injection H.
  - simpl. split.
    + intros H. apply Z.eqb_eq in H. subst z. right. right. now left.
    + intros [H|[(s & H & _)|[H|(q & H & _)]]]; try discriminate.
      now injection H as ->.
  - destruct f as [q| |]; simpl.
    + split.
      * intros H. apply Qeq_bool_iff in H. right. right. right. eauto.
      * intros [H|[(s & H & _)|[H|(q' & H & Hq)]]]; try discriminate.
        injection H as <-. now apply Qeq_bool_iff.
    + split; [discriminate|].
      intros [H|[(s & H & _)|[H|(q & H & _)]]]; discriminate.
    + split; [discriminate|].
      intros [H|[(s & H & _)|[H|(q & H & _)]]]; discriminate.
  - rewrite config_is_true_str. split.
    + intros H. right. left. eauto.
    + intros [H|[(s' & H & Hs)|[H|(q & H & _)]]]; try discriminate.
      now injection H as <-.
  - simpl. split; [discriminate|].
    intros [H|[(s & H & _)|[H|(q & H & _)]]]; discriminate.
  - simpl. split; [discriminate|].
    intros [H|[(s & H & _)|[H|(q & H & _)]]]; discriminate.
Qed.


(** C8 (amended). A report whose archive list is empty makes the check fail
    with an uncaught [IndexError], and a report without an archive list
    with a [KeyError], after the status query and before anything is
    printed: neither is taken for an OK or a WARN verdict.  A record that
    is malformed further in is noticed only when the check reads that
    field: a record without [stats] still gets the too-old warning when its
    start is too old, and fails with a [KeyError] otherwise. *)
Theorem unreadable_report_raises (p : BackupPolicy) (config : value)
    (max : Z) (min : option Z) (h : list event) (out : string) (d : dict) :
  let h1 :=
    h ++ [Launch (info_command p) (option_map VStr (remote_rsh p)) true] in
  has_remote p config ->
  tool h (info_command p) (option_map VStr (remote_rsh p)) true = (0, out) ->
  safe_load out = Ok (VDict d) ->
  (Py.get "archives" d = Some (VList []) ->
   action_check_age config max min h = (Raise IndexError, h1)) /\
  (Py.get "archives" d = None ->
   action_check_age config max min h = (Raise (KeyError "archives"), h1)) /\
  (forall a rest start elapsed,
     Py.get "archives" d = Some (VList (VDict a :: rest)) ->
     Py.get "start" a = Some (VStr start) ->
     Py.get "stats" a = None ->
     seconds_since h1 start = Ok elapsed ->
     action_check_age config max min h
     = if negb (Qle_bool elapsed (inject_Z max)) then
         (Raise (SystemExit 1), h1 ++ [Print (too_old_message start)])
       else (Raise (KeyError "stats"), h1)).
Proof.
  intros h1 Hrem Htool Hload.
  destruct (check_age_unreadable p config max min h out d Hrem Htool Hload)
    as [Hempty Hnone].
  split; [exact Hempty | split; [exact Hnone|]].
  intros a rest start elapsed Ha Hs Hst Hclock.
  now apply (check_age_no_stats p config max min h out start d a rest).
Qed.

(** C9. A policy whose [location.source] is the single string [s] compiles
    to the same create command, and runs identically, as the same policy
    with [location.source] replaced by the one-element list [[s]]. *)
Theorem single_source_same_as_list (config : value) (s : string)
    (dry : bool) (h : list event) :
  Py.getitem2 config "location" "source" = Ok (VStr s) ->
  action_create config dry h
  = action_create (with_source config (VList [VStr s])) dry h.
Proof.
  intros H. symmetry. unfold action_create, run.
  rewrite (source_with_source _ _ _ H), H.
  rewrite !(getitem2_with_source _ _ _ _ _ H) by reflexivity.
  rewrite !(contains_at_with_source _ _ _ _ _ H).
  reflexivity.
Qed.

(** C10. [action_create] reads [location.source] first and [action_prune]
    reads the retention mapping whatever it holds: without a
    [location.source] entry the first, and without a retention section the
    second, ends in a [KeyError] before anything is launched, although a
    retention section that is present may be empty. *)
Theorem source_and_retention_are_required (p : BackupPolicy)
    (config : value) (dry : bool) (h : list event) :
  let cmds :=
    map VStr
      (["borgbackup"; "prune"; "--stats"; "--list"; "--prefix";
        remote_prefix p]
       ++ (if dry then ["--dry-run"] else [])
       ++ [remote_repository p]) in
  let env := option_map VStr (remote_rsh p) in
  (lacks config "location" "source" ->
   exists k, action_create config dry h = (Raise (KeyError k), h)) /\
  (has_remote p config -> lacks_section config "retention" ->
   action_prune config dry h = (Raise (KeyError "retention"), h)) /\
  (has_remote p config -> has_retention p config ->
   (forall k, retention p k = None) ->
   action_prune config dry h
   = (launched (fst (tool h cmds env false)), h ++ [Launch cmds env false])).
Proof.
  split; [|split].
  - intros H. destruct (getitem2_lacks _ _ _ H) as [k E].
    exists k. unfold action_create. now rewrite E.
  - intros (d & r & -> & Hr & Hrepo & Hpre & _) (d' & E & Hnone).
    injection E as <-. unfold action_prune.
    rewrite (getitem2_get _ _ _ _ Hr), (getitem_get _ _ _ Hpre), bind_lift_ok.
    unfold keep, Py.contains_at. simpl Py.getitem. rewrite Hnone. reflexivity.
  - intros Hrem Hret Hnone.
    rewrite (action_prune_policy p), runner_run_unit by assumption.
    unfold prune_command, keep_flag, retention_kinds. cbn [flat_map].
    rewrite !Hnone. reflexivity.
Qed.

(** ** Further properties of the code *)

(** *** The create action as a run of its pipeline *)

Lemma run_events_app (h a b : list event) :
  run_events h (a ++ b)
  = match run_events h a with
    | (Ok _, h') => run_events h' b
    | (Raise e, h') => (Raise e, h')
    end.
Proof.
  revert h. induction a as [|e a IH]; intros h; simpl; [reflexivity|].
  destruct (exit_status h e =? 0); [apply IH | reflexivity].
Qed.

Lemma bind_run_events (m k : M unit) (a b : list event) (h : list event) :
  (forall h, m h = run_events h a) ->
  (forall h, k h = run_events h b) ->
  bind m (fun _ => k) h = run_events h (a ++ b).
Proof.
  intros Hm Hk. unfold bind. rewrite run_events_app, Hm.
  destruct (run_events h a) as [[[]|e] h']; [apply Hk | reflexivity].
Qed.

Lemma hooks_run_events (dry : bool) (hooks : list string) (h : list event) :
  for_each (hook_body dry) (map VStr hooks) h
  = run_events h (map (hook_step dry) hooks).
Proof.
  revert h. induction hooks as [|x hooks IH]; intros h; [reflexivity|].
  cbn [for_each map run_events]. unfold bind.
  destruct dry; unfold hook_body, hook_step.
  - unfold print, emit. cbn [exit_status Z.eqb]. apply IH.
  - unfold runner_run_hook, hook_event. cbn [exit_status].
    destruct (hook_status h (VStr x) =? 0); [apply IH | reflexivity].
Qed.

Lemma launch_run_events (p : BackupPolicy) (cmds : list string)
    (h : list event) :
  (runner_run (map VStr cmds) (option_map VStr (remote_rsh p)) false ;;
   ret tt) h
  = run_events h [launch_of p cmds].
Proof.
  rewrite runner_run_unit. unfold launched, launch_of. cbn [run_events exit_status].
  now destruct (fst (tool h (map VStr cmds) (option_map VStr (remote_rsh p)) false)
                =? 0).
Qed.

(** For a valid policy the create action is the run of its pipeline, whatever
    the processes answer. *)
Lemma create_is_run_events (p : BackupPolicy) (config : value) (args : Args)
    (h : list event) :
  valid_policy p config ->
  CreateAction_execute config args h
  = run_events h (pipeline p (dry_run args) (negb (no_prune args))).
Proof.
  intros (Hrem & Hloc & Hret & Hhooks).
  unfold CreateAction_execute, pipeline.
  apply bind_run_events.
  { intros h0. rewrite (hooks_before_policy p) by assumption.
    apply hooks_run_events. }
  intros h1. apply bind_run_events.
  { intros h0. rewrite (action_create_policy p) by assumption.
    apply launch_run_events. }
  intros h2. apply bind_run_events.
  { intros h0. rewrite (hooks_after_policy p) by assumption.
    apply hooks_run_events. }
  intros h3. destruct (no_prune args); cbn [negb]; [reflexivity|].
  rewrite (action_prune_policy p) by assumption.
  apply launch_run_events.
Qed.

Lemma run_events_ok (h trace : list event) :
  all_succeed h trace -> run_events h trace = (Ok tt, h ++ trace).
Proof.
  revert h. induction trace as [|e trace IH]; intros h; simpl.
  - intros _. now rewrite app_nil_r.
  - intros [E H]. rewrite E. simpl. rewrite (IH _ H), <- app_assoc.
    reflexivity.
Qed.

Lemma run_events_stops (h pre post : list event) (e : event) :
  all_succeed h pre -> exit_status (h ++ pre) e <> 0 ->
  run_events h (pre ++ e :: post)
  = (Raise (CalledProcessError (exit_status (h ++ pre) e)),
     h ++ pre ++ [e]).
Proof.
  intros Hpre Hbad. rewrite run_events_app, (run_events_ok _ _ Hpre).
  cbn [run_events].
  destruct (Z.eqb_spec (exit_status (h ++ pre) e) 0); [contradiction|].
  now rewrite <- app_assoc.
Qed.

(** The same without a retention section when the prune step is left out. *)
Lemma create_is_run_events_when (p : BackupPolicy) (config : value)
    (args : Args) (h : list event) :
  has_remote p config -> has_location p config -> has_hooks p config ->
  (no_prune args = false -> has_retention p config) ->
  CreateAction_execute config args h
  = run_events h (pipeline p (dry_run args) (negb (no_prune args))).
Proof.
  intros Hrem Hloc Hhooks Hret.
  unfold CreateAction_execute, pipeline.
  apply bind_run_events.
  { intros h0. rewrite (hooks_before_policy p) by assumption.
    apply hooks_run_events. }
  intros h1. apply bind_run_events.
  { intros h0. rewrite (action_create_policy p) by assumption.
    apply launch_run_events. }
  intros h2. apply bind_run_events.
  { intros h0. rewrite (hooks_after_policy p) by assumption.
    apply hooks_run_events. }
  intros h3. destruct (no_prune args); cbn [negb]; [reflexivity|].
  rewrite (action_prune_policy p) by auto.
  apply launch_run_events.
Qed.

(** C3 (amended). For every valid policy, when every launched process exits
    with status 0, the create action performs, in this order and nothing
    else: each before-hook in declaration order, exactly one create launch,
    each after-hook in declaration order, and exactly one prune launch; with
    [--no-prune] the create launch is the only launch of the tool, and the
    retention section is not needed.  The hooks are launched when dry-run is
    off; under dry-run each hook is only reported as skipped, and the create
    and prune launches carry [--dry-run]. *)
Theorem create_runs_hooks_create_hooks_prune (p : BackupPolicy)
    (config : value) (args : Args) (h : list event) :
  has_remote p config -> has_location p config -> has_hooks p config ->
  (no_prune args = false -> has_retention p config) ->
  all_succeed h (pipeline p (dry_run args) (negb (no_prune args))) ->
  CreateAction_execute config args h
  = (Ok tt,
     h ++ map (hook_step (dry_run args)) (before_hooks p)
       ++ [launch_of p (create_command p (dry_run args))]
       ++ map (hook_step (dry_run args)) (after_hooks p)
       ++ (if no_prune args then []
           else [launch_of p (prune_command p (dry_run args))])).
Proof.
  intros Hrem Hloc Hhooks Hret Hok.
  rewrite (create_is_run_events_when p) by assumption.
  rewrite (run_events_ok _ _ Hok).
  unfold pipeline. now destruct (no_prune args).
Qed.

(** X1. The create action stops at the first process of its pipeline that
    exits non-zero, be it a hook, the create run or the prune run: what comes
    before it has run, nothing after it runs, and its exit status is raised
    as a [CalledProcessError]. *)
Theorem create_stops_at_first_failure (p : BackupPolicy) (config : value)
    (args : Args) (h pre post : list event) (e : event) :
  valid_policy p config ->
  pipeline p (dry_run args) (negb (no_prune args)) = pre ++ e :: post ->
  all_succeed h pre ->
  exit_status (h ++ pre) e <> 0 ->
  CreateAction_execute config args h
  = (Raise (CalledProcessError (exit_status (h ++ pre) e)), h ++ pre ++ [e]).
Proof.
  intros Hvalid Hsplit Hpre Hbad.
  rewrite (create_is_run_events p) by assumption.
  rewrite Hsplit. now apply run_events_stops.
Qed.

(** X2. Under dry-run the create action launches no hook: it prints one line
    per hook, in declaration order, and still launches the tool, once for
    [create] and once for [prune], each with [--dry-run]. *)
Theorem dry_run_reports_hooks (p : BackupPolicy) (config : value)
    (args : Args) (h : list event) :
  valid_policy p config -> dry_run args = true ->
  all_succeed h (pipeline p true (negb (no_prune args))) ->
  CreateAction_execute config args h
  = (Ok tt,
     h ++ map (fun x => Print (skip_message (VStr x))) (before_hooks p)
       ++ [launch_of p (create_command p true)]
       ++ map (fun x => Print (skip_message (VStr x))) (after_hooks p)
       ++ (if no_prune args then []
           else [launch_of p (prune_command p true)])).
Proof.
  intros Hvalid Hdry Hok.
  rewrite (create_is_run_events p) by assumption.
  rewrite Hdry, (run_events_ok _ _ Hok).
  unfold pipeline. now destruct (no_prune args).
Qed.

(** *** Computations that launch no hook *)

Lemma hookless_of_silent {A} (m : M A) : silent m -> hookless m.
Proof.
  intros Hm h. specialize (Hm h). destruct (m h) as [r h']; simpl in Hm.
  subst h'. exists r, []. now rewrite app_nil_r.
Qed.

Lemma hookless_bind {A B} (m : M A) (k : A -> M B) :
  hookless m -> (forall a, hookless (k a)) -> hookless (bind m k).
Proof.
  intros Hm Hk h. destruct (Hm h) as (r & new & E & Hnew).
  unfold bind. rewrite E. destruct r as [a|e].
  - destruct (Hk a (h ++ new)) as (r' & new' & E' & Hnew').
    exists r', (new ++ new'). rewrite E', app_assoc, existsb_app, Hnew, Hnew'.
    now split.
  - now exists (Raise e), new.
Qed.

Lemma hookless_runner_run (cmds : list value) (env : option value)
    (capture : bool) :
  hookless (runner_run cmds env capture).
Proof.
  intros h. unfold runner_run.
  destruct (tool h cmds env capture) as [status out].
  destruct (status =? 0); eauto.
Qed.

Ltac hookless_steps :=
  cbv zeta;
  repeat (apply hookless_bind;
          [solve [apply hookless_of_silent; silent_tac] | intros ?; cbv zeta]).

Lemma hookless_run (action : string) (config : value) (archive : bool)
    (args : list value) (trailing : value) (capture : bool) :
  hookless (run action config archive args trailing capture).
Proof. unfold run. hookless_steps. apply hookless_runner_run. Qed.

Lemma hookless_action_create (config : value) (dry : bool) :
  hookless (action_create config dry).
Proof.
  unfold action_create. hookless_steps.
  apply hookless_bind; [apply hookless_run | intros _].
  apply hookless_of_silent, silent_ret.
Qed.

Lemma hookless_action_prune (config : value) (dry : bool) :
  hookless (action_prune config dry).
Proof.
  unfold action_prune. hookless_steps.
  apply hookless_bind; [apply hookless_run | intros _].
  apply hookless_of_silent, silent_ret.
Qed.

Lemma hookless_skipped (hooks : list value) :
  hookless (for_each (hook_body true) hooks).
Proof.
  induction hooks as [|x hooks IH]; simpl.
  - apply hookless_of_silent, silent_ret.
  - apply hookless_bind; [|intros _; exact IH].
    intros h. unfold hook_body, print, emit. eauto.
Qed.

Lemma hookless_hooks_before (config : value) :
  hookless (hooks_before config true).
Proof.
  unfold hooks_before. hookless_steps.
  match goal with |- hookless (if ?b then _ else _) => destruct b end;
    [apply hookless_of_silent, silent_ret|].
  hookless_steps. apply hookless_skipped.
Qed.

Lemma hookless_hooks_after (config : value) :
  hookless (hooks_after config true).
Proof.
  unfold hooks_after. hookless_steps.
  match goal with |- hookless (if ?b then _ else _) => destruct b end;
    [apply hookless_of_silent, silent_ret|].
  hookless_steps. apply hookless_skipped.
Qed.

(** X3. Under dry-run no hook is ever launched by the create action: for any
    document, well-formed or not, and whatever the tool answers, no hook
    appears among the events the action adds. *)
Theorem dry_run_never_launches_a_hook (config : value) (args : Args)
    (h : list event) :
  dry_run args = true ->
  exists r new,
    CreateAction_execute config args h = (r, h ++ new)
    /\ existsb is_hook new = false.
Proof.
  intros Hdry. revert h.
  change (hookless (CreateAction_execute config args)).
  unfold CreateAction_execute. rewrite Hdry.
  apply hookless_bind; [apply hookless_hooks_before | intros _].
  apply hookless_bind; [apply hookless_action_create | intros _].
  apply hookless_bind; [apply hookless_hooks_after | intros _].
  destruct (negb (no_prune args));
    [apply hookless_action_prune | apply hookless_of_silent, silent_ret].
Qed.

(** *** Actions that need the repository only *)



(** *** The monitoring check from the command line *)

(** X5. [nagios-check-age --max-age H --min-size M] on a readable report:
    the archive is too old when more than [H * 3600] seconds have passed;
    otherwise it is too small when [M] is given, is not 0, and the size is
    below [M * 1024 * 1024] bytes; otherwise it is OK.  [--min-size 0]
    checks no size at all. *)
Theorem check_age_cli_thresholds (p : BackupPolicy) (config report : value)
    (args : Args) (h : list event) (out start : string) (size : Z)
    (elapsed : Q) :
  let h1 :=
    h ++ [Launch (info_command p) (option_map VStr (remote_rsh p)) true] in
  has_remote p config ->
  tool h (info_command p) (option_map VStr (remote_rsh p)) true = (0, out) ->
  safe_load out = Ok report ->
  latest_archive report start size ->
  seconds_since h1 start = Ok elapsed ->
  CheckAgeAction_execute config args h
  = if negb (Qle_bool elapsed (inject_Z (max_age args * 3600))) then
      (Raise (SystemExit 1), h1 ++ [Print (too_old_message start)])
    else
      match min_size args with
      | Some mib =>
          if negb (mib =? 0) && (size <? mib * 1024 * 1024) then
            (Raise (SystemExit 1),
             h1 ++ [Print (too_small_message size (mib * 1024 * 1024))])
          else (Ok tt, h1 ++ [Print ok_message])
      | None => (Ok tt, h1 ++ [Print ok_message])
      end.
Proof.
  intros h1 Hrem Htool Hload Hlatest Hclock. unfold CheckAgeAction_execute.
  rewrite (check_age_decision p config report _ _ h out start size elapsed
             Hrem Htool Hload Hlatest Hclock).
  fold h1. destruct (negb (Qle_bool elapsed (inject_Z (max_age args * 3600))));
    [reflexivity|].
  destruct (min_size args) as [mib|]; [|reflexivity].
  destruct (Z.eqb_spec mib 0) as [->|Hmib]; [reflexivity|].
  destruct (Z.eqb_spec (mib * 1024 * 1024) 0) as [E|_]; [lia | reflexivity].
Qed.

(** X6. When the status query itself fails, the check raises the tool's exit
    status, and when its output cannot be loaded, the loader's error; in both
    cases nothing is printed, neither OK nor a warning. *)
Theorem check_age_query_failure (p : BackupPolicy) (config : value)
    (max : Z) (min : option Z) (h : list event) (out : string) (rc : Z) :
  let h1 :=
    h ++ [Launch (info_command p) (option_map VStr (remote_rsh p)) true] in
  has_remote p config ->
  tool h (info_command p) (option_map VStr (remote_rsh p)) true = (rc, out) ->
  (rc <> 0 ->
   action_check_age config max min h = (Raise (CalledProcessError rc), h1)) /\
  (rc = 0 -> forall e, safe_load out = Raise e ->
   action_check_age config max min h = (Raise e, h1)).
Proof.
  intros h1 Hrem Htool.
  assert (Hrun :
    run "info" config false [VStr "--last"; VStr "1"; VStr "--json"]
      (VList []) true h
    = (if rc =? 0 then Ok out else Raise (CalledProcessError rc), h1)).
  { rewrite (run_policy p) by assumption.
    unfold runner_run, info_command in *. cbn [app map] in *.
    rewrite Htool. now destruct (rc =? 0). }
  split.
  - intros Hrc. unfold action_check_age. apply bind_raise.
    rewrite Hrun. now destruct (Z.eqb_spec rc 0).
  - intros -> e Hload. unfold action_check_age.
    rewrite (bind_ok _ _ _ _ _ Hrun), Hload. reflexivity.
Qed.

(** X7. Without [--min-size] the size is read but never looked at: a record
    that passes the age check is OK whatever its [original_size] holds, and
    the check still fails with a [KeyError] when the entry is missing. *)
Theorem check_age_without_min_size (p : BackupPolicy) (config : value)
    (max : Z) (h : list event) (out start : string) (d a st : dict)
    (rest : list value) (elapsed : Q) :
  let h1 :=
    h ++ [Launch (info_command p) (option_map VStr (remote_rsh p)) true] in
  has_remote p config ->
  tool h (info_command p) (option_map VStr (remote_rsh p)) true = (0, out) ->
  safe_load out = Ok (VDict d) ->
  Py.get "archives" d = Some (VList (VDict a :: rest)) ->
  Py.get "start" a = Some (VStr start) ->
  Py.get "stats" a = Some (VDict st) ->
  seconds_since h1 start = Ok elapsed ->
  (elapsed <= inject_Z max)%Q ->
  (forall v, Py.get "original_size" st = Some v ->
   action_check_age config max None h = (Ok tt, h1 ++ [Print ok_message])) /\
  (Py.get "original_size" st = None ->
   action_check_age config max None h
   = (Raise (KeyError "original_size"), h1)).
Proof.
  intros h1 Hrem Htool Hload Ha Hs Hst Hclock Hage.
  apply Qle_bool_iff in Hage.
  assert (E :
    action_check_age config max None h
    = match Py.get "original_size" st with
      | Some v => (Ok tt, h1 ++ [Print ok_message])
      | None => (Raise (KeyError "original_size"), h1)
      end).
  { unfold action_check_age.
    rewrite (bind_ok _ _ _ _ _ (info_run p config h out Hrem Htool)).
    fold h1. rewrite Hload, bind_lift_ok.
    unfold Py.getitem2.
    do 4 (cbn [Py.getitem Py.getitem0 rbind]; rewrite ?Ha, ?Hs, ?Hst).
    rewrite bind_lift_ok.
    unfold bind at 1. rewrite Hclock, Hage. cbn [negb].
    rewrite bind_ret.
    destruct (Py.get "original_size" st); reflexivity. }
  split.
  - intros v Hv. now rewrite E, Hv.
  - intros Hnone. now rewrite E, Hnone.
Qed.

(** *** What the check prints and how it ends *)

Lemma launches_only_of_silent {A} (m : M A) : silent m -> launches_only m.
Proof.
  intros Hm h. specialize (Hm h). destruct (m h) as [r h']; simpl in Hm.
  subst h'. exists r, []. now rewrite app_nil_r.
Qed.

Lemma launches_only_bind {A B} (m : M A) (k : A -> M B) :
  launches_only m -> (forall a, launches_only (k a)) ->
  launches_only (bind m k).
Proof.
  intros Hm Hk h. destruct (Hm h) as (r & new & E & Hnew).
  unfold bind. rewrite E. destruct r as [a|e].
  - destruct (Hk a (h ++ new)) as (r' & new' & E' & Hnew').
    exists r', (new ++ new'). rewrite E', app_assoc, forallb_app, Hnew, Hnew'.
    now split.
  - now exists (Raise e), new.
Qed.

Lemma launches_only_runner_run (cmds : list value) (env : option value)
    (capture : bool) :
  launches_only (runner_run cmds env capture).
Proof.
  intros h. unfold runner_run.
  destruct (tool h cmds env capture) as [status out].
  destruct (status =? 0); eauto.
Qed.

Lemma launches_only_run (action : string) (config : value) (archive : bool)
    (args : list value) (trailing : value) (capture : bool) :
  launches_only (run action config archive args trailing capture).
Proof.
  unfold run.
  repeat (apply launches_only_bind;
          [solve [apply launches_only_of_silent; silent_tac] | intros ?]).
  apply launches_only_runner_run.
Qed.

Lemma bind_lift_cases {A B} (r : result A) (k : A -> M B) (h : list event) :
  bind (lift r) k h
  = match r with
    | Ok a => k a h
    | Raise e => (Raise e, h)
    end.
Proof. now destruct r. Qed.

Lemma warning_is_not_ok (text : string) :
  ("BORGBACKUP WARNING: last backup too " ++ text)%string <> ok_message.
Proof. intros E. cbn in E. discriminate E. Qed.

(** X8. The check's exit and its message always agree, for any document and
    any answer of the tool: it returns normally exactly when it has printed
    [BORGBACKUP OK], and whenever it has printed anything else (a warning) it
    ends with [sys.exit(1)]. *)
Theorem check_age_exit_matches_message (config : value) (max : Z)
    (min : option Z) (h : list event) :
  exists r new,
    action_check_age config max min h = (r, h ++ new)
    /\ (r = Ok tt <-> In (Print ok_message) new)
    /\ (forall line, In (Print line) new -> line <> ok_message ->
        r = Raise (SystemExit 1)).
Proof.
  destruct (launches_only_run "info" config false
              [VStr "--last"; VStr "1"; VStr "--json"] (VList []) true h)
    as (r0 & new & E & Hnew).
  assert (Hnp : forall line, ~ In (Print line) new).
  { intros line Hin. rewrite forallb_forall in Hnew.
    specialize (Hnew _ Hin). discriminate Hnew. }
  assert (Hraise : forall e,
    (Raise e : result unit) = Ok tt <-> In (Print ok_message) new).
  { intros e. split; [discriminate | intros Hin; destruct (Hnp _ Hin)]. }
  assert (Hwarn : forall text,
    let line := ("BORGBACKUP WARNING: last backup too " ++ text)%string in
    ((Raise (SystemExit 1) : result unit) = Ok tt
     <-> In (Print ok_message) (new ++ [Print line]))
    /\ (forall line', In (Print line') (new ++ [Print line]) ->
        line' <> ok_message ->
        (Raise (SystemExit 1) : result unit) = Raise (SystemExit 1))).
  { intros text line. split; [|reflexivity].
    split; [discriminate|]. intros Hin. apply in_app_or in Hin.
    destruct Hin as [Hin | [Hin | []]]; [destruct (Hnp _ Hin)|].
    apply (f_equal (fun e => match e with Print l => l | _ => ok_message end))
      in Hin.
    destruct (warning_is_not_ok text Hin). }
  unfold action_check_age. unfold bind at 1. rewrite E.
  destruct r0 as [out|e]; [|exists (Raise e), new; split; [reflexivity|];
    split; [apply Hraise | intros line Hin; destruct (Hnp _ Hin)]].
  rewrite bind_lift_cases.
  destruct (safe_load out) as [last_backup|e];
    [|exists (Raise e), new; split; [reflexivity|];
      split; [apply Hraise | intros line Hin; destruct (Hnp _ Hin)]].
  cbv zeta. rewrite bind_lift_cases.
  destruct (rbind (rbind (Py.getitem last_backup "archives") Py.getitem0)
              (fun a => Py.getitem a "start")) as [start|e];
    [|exists (Raise e), new; split; [reflexivity|];
      split; [apply Hraise | intros line Hin; destruct (Hnp _ Hin)]].
  unfold bind at 1.
  destruct (match start with
            | VStr t => fun h0 => (seconds_since h0 t, h0)
            | _ => raise TypeError
            end (h ++ new)) as [elapsed h1] eqn:Eclock.
  assert (Eh1 : h1 = h ++ new).
  { destruct start; try (injection Eclock as _ <-; reflexivity). }
  subst h1. clear Eclock.
  destruct elapsed as [elapsed|e];
    [|exists (Raise e), new; split; [reflexivity|];
      split; [apply Hraise | intros line Hin; destruct (Hnp _ Hin)]].
  destruct (negb (Qle_bool elapsed (inject_Z max))).
  { exists (Raise (SystemExit 1)),
      (new ++ [Print ("BORGBACKUP WARNING: last backup too "
                      ++ ("old" ++ nl ++ nl ++ str start))%string]).
    split; [now rewrite app_assoc | apply Hwarn]. }
  rewrite bind_ret, bind_lift_cases.
  destruct (rbind (rbind (Py.getitem last_backup "archives") Py.getitem0)
              (fun a => Py.getitem2 a "stats" "original_size")) as [size|e];
    [|exists (Raise e), new; split; [reflexivity|];
      split; [apply Hraise | intros line Hin; destruct (Hnp _ Hin)]].
  assert (Hok : exists r new',
    (Ok tt, (h ++ new) ++ [Print ok_message]) = (r, h ++ new')
    /\ (r = Ok tt <-> In (Print ok_message) new')
    /\ (forall line, In (Print line) new' -> line <> ok_message ->
        r = Raise (SystemExit 1))).
  { exists (Ok tt), (new ++ [Print ok_message]).
    split; [now rewrite app_assoc|]. split.
    - split; [intros _; apply in_or_app; right; now left | reflexivity].
    - intros line Hin Hline. apply in_app_or in Hin.
      destruct Hin as [Hin | [Hin | []]]; [destruct (Hnp _ Hin)|].
      exfalso. apply Hline. now injection Hin. }
  destruct min as [m|]; [|exact Hok].
  destruct (m =? 0); [exact Hok|].
  rewrite bind_lift_cases.
  destruct (Py.lt_int size m) as [[|]|e].
  - exists (Raise (SystemExit 1)),
      (new ++ [Print ("BORGBACKUP WARNING: last backup too "
                      ++ ("small" ++ nl ++ nl ++ str size ++ "B < "
                          ++ Py.str_of_Z m ++ "B"))%string]).
    split; [now rewrite app_assoc | apply Hwarn].
  - exact Hok.
  - exists (Raise e), new. split; [reflexivity|].
    split; [apply Hraise | intros line Hin; destruct (Hnp _ Hin)].
Qed.

(** *** Entries of the wrong shape *)

Lemma bind_assoc {A B C} (m : M A) (k : A -> M B) (k' : B -> M C)
    (h : list event) :
  bind (bind m k) k' h = bind m (fun a => bind (k a) k') h.
Proof. unfold bind. now destruct (m h) as [[a|e] h']. Qed.

(** X9. Only [location.source] is normalised: an [exclude] entry given as a
    single string is iterated as it is, so every character of it becomes an
    [--exclude] pattern of its own. *)
Theorem exclude_string_is_split (p : BackupPolicy) (d l : dict)
    (pattern : string) (paths : list string) (dry : bool) (h : list event) :
  has_remote p (VDict d) ->
  Py.get "location" d = Some (VDict l) ->
  Py.get "source" l = Some (strs paths) ->
  Py.get "one_file_system" l = None ->
  Py.get "exclude_caches" l = None ->
  Py.get "exclude_if_present" l = None ->
  Py.get "exclude" l = Some (VStr pattern) ->
  let cmds :=
    map VStr (["borgbackup"; "create"]
              ++ opt_flag "--compression" (remote_compression p))
    ++ flat_map (fun c => [VStr "--exclude"; c]) (Py.chars pattern)
    ++ map VStr ((if dry then ["--dry-run"] else [])
                 ++ [repository_argument p true] ++ paths) in
  let env := option_map VStr (remote_rsh p) in
  action_create (VDict d) dry h
  = (launched (fst (tool h cmds env false)), h ++ [Launch cmds env false]).
Proof.
  intros Hrem Hl Hsrc Hofs Hec Heip Hex cmds env.
  pose proof Hrem as (d' & r & E & Hr & Hrepo & Hpre & Hcomp & Hrsh).
  injection E as <-.
  unfold action_create.
  rewrite !(getitem2_get _ _ _ _ Hl), !(getitem2_get _ _ _ _ Hr).
  rewrite !(contains_at_get _ _ _ _ Hl), !(contains_at_get _ _ _ _ Hr).
  rewrite (getitem_get _ _ _ Hsrc), bind_lift_ok.
  rewrite (step_opt_flag _ _ _ _ _ _ _ Hcomp).
  rewrite (step_truthy_flag _ _ _ _ _ _ _ Hofs).
  rewrite (step_truthy_flag _ _ _ _ _ _ _ Hec).
  rewrite (step_each_flag _ _ _ None _ _ _ Heip).
  cbn [Py.contains Py.getitem]. rewrite Hex.
  rewrite !bind_lift_ok.
  rewrite bind_assoc, bind_lift_ok, bind_assoc.
  unfold flag_each. cbn [Py.iter rbind]. rewrite bind_lift_ok, bind_ret.
  cbn [strs].
  erewrite bind_congr by (apply run_policy; exact Hrem).
  rewrite runner_run_unit.
  match goal with
  | |- (launched (fst (tool h ?c _ _)), _) = _ =>
      assert (Ecmd : c = cmds)
  end.
  { subst cmds. cbn [truthy each_flag map]. rewrite !map_app, ?app_nil_r.
    destruct dry; cbn [map app]; rewrite <- ?app_assoc; reflexivity. }
  now rewrite Ecmd.
Qed.

(** X10. A [hooks] section that is present but empty (a YAML null), or a hook
    list that is, makes the create action fail with a [TypeError] before
    anything is launched, where a missing section or list would have been
    skipped. *)
Theorem empty_hooks_section_raises (d : dict) (args : Args)
    (h : list event) :
  (Py.get "hooks" d = Some VNone ->
   CreateAction_execute (VDict d) args h = (Raise TypeError, h)) /\
  (forall hk, Py.get "hooks" d = Some (VDict hk) ->
   Py.get "before" hk = Some VNone ->
   CreateAction_execute (VDict d) args h = (Raise TypeError, h)) /\
  (Py.get "hooks" d = None ->
   hooks_before (VDict d) (dry_run args) h = (Ok tt, h)).
Proof.
  split; [|split].
  - intros H. apply bind_raise. unfold hooks_before, Py.contains_at.
    cbn [Py.contains Py.getitem rbind]. now rewrite H.
  - intros hk H Hb. apply bind_raise.
    unfold hooks_before, Py.contains_at, Py.getitem2.
    cbn [Py.contains Py.getitem rbind]. rewrite H.
    cbn [Py.contains Py.getitem rbind]. now rewrite Hb.
  - intros H. unfold hooks_before. cbn [Py.contains]. now rewrite H.
Qed.

(** *** A document without a retention section *)

(** X11. The retention section is read only when the prune step is reached:
    with [--no-prune] the create action runs to the end without it; without
    the flag the before-hooks, the create run and the after-hooks have all
    run by the time the action fails with [KeyError]. *)
Theorem missing_retention_found_after_backup (p : BackupPolicy)
    (config : value) (args : Args) (h : list event) :
  let done :=
    map hook_event (before_hooks p)
    ++ [launch_of p (create_command p false)]
    ++ map hook_event (after_hooks p) in
  has_remote p config -> has_location p config -> has_hooks p config ->
  lacks_section config "retention" ->
  dry_run args = false ->
  all_succeed h done ->
  CreateAction_execute config args h
  = (if no_prune args then Ok tt else Raise (KeyError "retention"),
     h ++ done).
Proof.
  intros done Hrem Hloc Hhooks Hlacks Hdry Hok.
  assert (E : forall m : M unit,
    bind (hooks_before config false)
      (fun _ => bind (action_create config false)
         (fun _ => bind (hooks_after config false) (fun _ => m))) h
    = match run_events h done with
      | (Ok _, h') => m h'
      | (Raise e, h') => (Raise e, h')
      end).
  { intros m. subst done. rewrite !run_events_app.
    unfold bind at 1. rewrite (hooks_before_policy p) by assumption.
    rewrite (hooks_run_events false).
    change (map (hook_step false) (before_hooks p))
      with (map hook_event (before_hooks p)).
    destruct (run_events h (map hook_event (before_hooks p)))
      as [[[]|e] h1]; [|reflexivity].
    rewrite run_events_app.
    unfold bind at 1. rewrite (action_create_policy p) by assumption.
    rewrite launch_run_events.
    destruct (run_events h1 [launch_of p (create_command p false)])
      as [[[]|e] h2]; [|reflexivity].
    unfold bind at 1. rewrite (hooks_after_policy p) by assumption.
    rewrite (hooks_run_events false).
    change (map (hook_step false) (after_hooks p))
      with (map hook_event (after_hooks p)).
    now destruct (run_events h2 (map hook_event (after_hooks p)))
      as [[[]|e] h3]. }
  unfold CreateAction_execute. rewrite Hdry, E, (run_events_ok _ _ Hok).
  destruct (no_prune args); cbn [negb]; [reflexivity|].
  destruct Hrem as (d & r & -> & Hr & Hrepo & Hpre & _).
  destruct Hlacks as (d' & Ed & Hnone). injection Ed as <-.
  unfold action_prune.
  rewrite (getitem2_get _ _ _ _ Hr), (getitem_get _ _ _ Hpre), bind_lift_ok.
  unfold keep, Py.contains_at. simpl Py.getitem. rewrite Hnone. reflexivity.
Qed.

End App.

(** ** The claims on the sample documents *)

Lemma sample_remote : has_remote Sample.policy Sample.config.
Proof. eexists _, _. repeat split. Qed.

Lemma sample_location : has_location Sample.policy Sample.config.
Proof. eexists _, _. repeat split. Qed.

Lemma sample_retention : has_retention Sample.policy Sample.config.
Proof.
  eexists _, _. split; [reflexivity|]. split; [reflexivity|].
  intros k. now destruct k.
Qed.

Lemma sample_hooks : has_hooks Sample.policy Sample.config.
Proof. eexists. repeat split. Qed.

Lemma sample_valid : valid_policy Sample.policy Sample.config.
Proof.
  repeat split;
    [apply sample_remote | apply sample_location
     | apply sample_retention | apply sample_hooks].
Qed.


Lemma create_command_compiled_witness :
  action_create Sample.repr Sample.tool Sample.config true []
  = (Ok tt,
     [Launch
        (map VStr
           ["borgbackup"; "create"; "--compression"; "lz4";
            "--one-file-system"; "--exclude"; "*.tmp"; "--exclude"; "/proc";
            "--dry-run";
            "/path/testrepo::testprefix-{utcnow:%Y-%m-%dT%H:%M:%SZ}";
            "source1"; "source2"])
        None false]).
Proof.
  exact (create_command_compiled Sample.repr Sample.tool Sample.policy
           Sample.config true [] sample_remote sample_location).
Defined.

Lemma prune_command_compiled_witness :
  action_prune Sample.repr Sample.tool Sample.config false []
  = (Ok tt,
     [Launch
        (map VStr
           ["borgbackup"; "prune"; "--stats"; "--list"; "--prefix";
            "testprefix"; "--keep-within"; "2d"; "--keep-daily"; "7";
            "/path/testrepo"])
        None false]).
Proof.
  exact (prune_command_compiled Sample.repr Sample.tool Sample.policy
           Sample.config false [] sample_remote sample_retention).
Defined.

Lemma create_runs_hooks_create_hooks_prune_witness :
  CreateAction_execute Sample.repr Sample.tool Sample.hook_status
    Sample.config Sample.args []
  = (Ok tt,
     [Hook (VStr "echo start"); Hook (VStr "false"); Hook (VStr "echo never");
      Launch
        (map VStr
           ["borgbackup"; "create"; "--compression"; "lz4";
            "--one-file-system"; "--exclude"; "*.tmp"; "--exclude"; "/proc";
            "/path/testrepo::testprefix-{utcnow:%Y-%m-%dT%H:%M:%SZ}";
            "source1"; "source2"])
        None false;
      Hook (VStr "echo done");
      Launch
        (map VStr
           ["borgbackup"; "prune"; "--stats"; "--list"; "--prefix";
            "testprefix"; "--keep-within"; "2d"; "--keep-daily"; "7";
            "/path/testrepo"])
        None false])
  /\ CreateAction_execute Sample.repr Sample.tool Sample.hook_status
       Edge.config_test Edge.args_no_prune []
     = (Ok tt,
        [Launch
           (map VStr
              ["borgbackup"; "create";
               "/path/testrepo::testprefix-{utcnow:%Y-%m-%dT%H:%M:%SZ}";
               "source1"; "source2"])
           None false]).
Proof.
  split.
  - apply (create_runs_hooks_create_hooks_prune Sample.repr Sample.tool
             Sample.hook_status Sample.policy Sample.config Sample.args []
             sample_remote sample_location sample_hooks
             (fun _ => sample_retention)).
    simpl. repeat split.
  - apply (create_runs_hooks_create_hooks_prune Sample.repr Sample.tool
             Sample.hook_status Edge.policy_test Edge.config_test
             Edge.args_no_prune []).
    + eexists _, _. repeat split.
    + eexists _, _. repeat split.
    + eexists. repeat split.
    + discriminate.
    + simpl. repeat split.
Defined.

(** C3, as stated, fails under dry-run: for a valid policy with hooks, with
    every process succeeding, the create action launches no hook at all; it
    only launches the tool, for [create] and for [prune]. *)
Lemma create_under_dry_run_launches_no_hook :
  valid_policy Sample.policy Sample.config
  /\ before_hooks Sample.policy = ["echo start"; "false"; "echo never"]
  /\ fst (CreateAction_execute Sample.repr Sample.tool Sample.hook_status
            Sample.config Edge.args_dry []) = Ok tt
  /\ filter (fun e => negb (is_launch e))
       (snd (CreateAction_execute Sample.repr Sample.tool Sample.hook_status
               Sample.config Edge.args_dry []))
     = [Print (skip_message Sample.repr (VStr "echo start"));
        Print (skip_message Sample.repr (VStr "false"));
        Print (skip_message Sample.repr (VStr "echo never"));
        Print (skip_message Sample.repr (VStr "echo done"))]
  /\ existsb is_hook
       (snd (CreateAction_execute Sample.repr Sample.tool Sample.hook_status
               Sample.config Edge.args_dry []))
     = false.
Proof.
  split; [apply sample_valid|]. repeat split.
Qed.

Lemma failing_before_hook_aborts_create_witness :
  CreateAction_execute Sample.repr Sample.tool Sample.hook_status_false
    Sample.config Sample.args []
  = (Raise (CalledProcessError 1),
     [Hook (VStr "echo start"); Hook (VStr "false")]).
Proof.
  apply (failing_before_hook_aborts_create Sample.repr Sample.tool
           Sample.hook_status_false Sample.policy Sample.config Sample.args []
           ["echo start"] ["echo never"] "false" sample_hooks eq_refl eq_refl).
  - simpl. repeat split.
  - simpl. discriminate.
Defined.

Lemma check_age_verdicts_witness :
  action_check_age Sample.repr Sample.tool Sample.safe_load
    Sample.seconds_since Sample.config (6 * 3600) None []
  = (Raise (SystemExit 1),
     [Launch (info_command Sample.policy) None true;
      Print (too_old_message Sample.start)])
  /\ action_check_age Sample.repr Sample.tool Sample.safe_load
       Sample.seconds_since Sample.config (24 * 3600) (Some 1000000) []
     = (Ok tt,
        [Launch (info_command Sample.policy) None true; Print ok_message])
  /\ action_check_age Sample.repr Sample.tool Sample.safe_load
       Sample.seconds_since Sample.config (24 * 3600) (Some 10485760) []
     = (Raise (SystemExit 1),
        [Launch (info_command Sample.policy) None true;
         Print (too_small_message 5000000 10485760)]).
Proof.
  assert (Hlatest : latest_archive Sample.report Sample.start 5000000).
  { eexists _, _, _, _. repeat split. }
  split; [|split].
  - apply (check_age_verdicts Sample.repr Sample.tool Sample.safe_load
             Sample.seconds_since Sample.policy Sample.config Sample.report
             (6 * 3600) None [] "{json}" Sample.start 5000000
             (inject_Z 36000) sample_remote eq_refl eq_refl Hlatest eq_refl).
    unfold Qlt. simpl. lia.
  - apply (check_age_verdicts Sample.repr Sample.tool Sample.safe_load
             Sample.seconds_since Sample.policy Sample.config Sample.report
             (24 * 3600) (Some 1000000) [] "{json}" Sample.start 5000000
             (inject_Z 36000) sample_remote eq_refl eq_refl Hlatest eq_refl).
    + unfold Qle. simpl. lia.
    + right. exists 1000000. split; [reflexivity | lia].
  - apply (check_age_verdicts Sample.repr Sample.tool Sample.safe_load
             Sample.seconds_since Sample.policy Sample.config Sample.report
             (24 * 3600) (Some 10485760) [] "{json}" Sample.start 5000000
             (inject_Z 36000) sample_remote eq_refl eq_refl Hlatest eq_refl).
    + unfold Qle. simpl. lia.
    + reflexivity.
    + lia.
    + lia.
Defined.

(** C6, as stated, fails on the float [1.0]: it coerces to true and is neither
    the boolean [True], nor a string, nor the integer [1]. *)
Lemma config_is_true_float_one :
  ~ (forall v,
       config_is_true v = true
       <-> v = VBool true
           \/ (exists s, v = VStr s /\
                         (same_ignoring_case s "yes"
                          \/ same_ignoring_case s "true"))
           \/ v = VInt 1).
Proof.
  intros H. destruct (proj1 (H (VFloat (FFinite 1))) eq_refl)
    as [E | [(s & E & _) | E]]; discriminate E.
Qed.



Lemma unreadable_report_raises_witness :
  action_check_age Sample.repr Sample.tool Sample.safe_load_empty
    Sample.seconds_since Sample.config (6 * 3600) None []
  = (Raise IndexError, [Launch (info_command Sample.policy) None true]).
Proof.
  apply (proj1 (unreadable_report_raises Sample.repr Sample.tool
                  Sample.safe_load_empty Sample.seconds_since Sample.policy
                  Sample.config (6 * 3600) None [] "{json}"
                  Sample.report_empty sample_remote eq_refl eq_refl)).
  reflexivity.
Defined.

(** C8, as stated, fails on a report whose first record has no [stats]: the
    report is malformed, and the check answers with the too-old warning. *)
Lemma malformed_report_gets_warning :
  report_well_formed (VDict Sample.report_no_stats) = false
  /\ action_check_age Sample.repr Sample.tool Sample.safe_load_no_stats
       Sample.seconds_since Sample.config (6 * 3600) None []
     = (Raise (SystemExit 1),
        [Launch (info_command Sample.policy) None true;
         Print (too_old_message Sample.start)]).
Proof. split; reflexivity. Qed.

Lemma single_source_same_as_list_witness :
  action_create Sample.repr Sample.tool Sample.config_one_source false []
  = action_create Sample.repr Sample.tool
      (with_source Sample.config_one_source (VList [VStr "source1"])) false [].
Proof.
  exact (single_source_same_as_list Sample.repr Sample.tool
           Sample.config_one_source "source1" false [] eq_refl).
Defined.

Lemma source_and_retention_are_required_witness :
  (exists k,
     action_create Sample.repr Sample.tool Sample.config_no_source false []
     = (Raise (KeyError k), []))
  /\ action_prune Sample.repr Sample.tool Sample.config_no_retention false []
     = (Raise (KeyError "retention"), [])
  /\ action_prune Sample.repr Sample.tool Sample.config_empty_retention false []
     = (Ok tt,
        [Launch
           (map VStr
              ["borgbackup"; "prune"; "--stats"; "--list"; "--prefix";
               "testprefix"; "/path/testrepo"])
           None false]).
Proof.
  assert (Hr1 : has_remote Sample.policy_no_retention Sample.config_no_retention).
  { eexists _, _. repeat split. }
  assert (Hr2 : has_remote Sample.policy_no_retention
                  Sample.config_empty_retention).
  { eexists _, _. repeat split. }
  split; [|split].
  - apply (proj1 (source_and_retention_are_required Sample.repr Sample.tool
                    Sample.policy_no_retention Sample.config_no_source
                    false [])).
    eexists. split; [reflexivity|]. right. eexists. now split.
  - apply (proj1 (proj2 (source_and_retention_are_required Sample.repr
                           Sample.tool Sample.policy_no_retention
                           Sample.config_no_retention false [])) Hr1).
    eexists. now split.
  - apply (proj2 (proj2 (source_and_retention_are_required Sample.repr
                           Sample.tool Sample.policy_no_retention
                           Sample.config_empty_retention false [])) Hr2).
    + eexists _, _. split; [reflexivity|]. split; [reflexivity|].
      intros k. now destruct k.
    + reflexivity.
Defined.

(** ** The further properties on the sample documents *)

Lemma create_stops_at_first_failure_witness :
  CreateAction_execute Sample.repr Edge.tool_create_fails Sample.hook_status
    Sample.config Sample.args []
  = (Raise (CalledProcessError 2),
     [Hook (VStr "echo start"); Hook (VStr "false"); Hook (VStr "echo never");
      Launch
        (map VStr
           ["borgbackup"; "create"; "--compression"; "lz4";
            "--one-file-system"; "--exclude"; "*.tmp"; "--exclude"; "/proc";
            "/path/testrepo::testprefix-{utcnow:%Y-%m-%dT%H:%M:%SZ}";
            "source1"; "source2"])
        None false]).
Proof.
  apply (create_stops_at_first_failure Sample.repr Edge.tool_create_fails
           Sample.hook_status Sample.policy Sample.config Sample.args []
           (map hook_event ["echo start"; "false"; "echo never"])
           [hook_event "echo done";
            launch_of Sample.policy (prune_command Sample.policy false)]
           (launch_of Sample.policy (create_command Sample.policy false))
           sample_valid eq_refl).
  - simpl. repeat split.
  - simpl. discriminate.
Defined.

Lemma dry_run_reports_hooks_witness :
  CreateAction_execute Sample.repr Sample.tool Sample.hook_status
    Sample.config Edge.args_dry []
  = (Ok tt,
     [Print (skip_message Sample.repr (VStr "echo start"));
      Print (skip_message Sample.repr (VStr "false"));
      Print (skip_message Sample.repr (VStr "echo never"));
      launch_of Sample.policy (create_command Sample.policy true);
      Print (skip_message Sample.repr (VStr "echo done"));
      launch_of Sample.policy (prune_command Sample.policy true)]).
Proof.
  apply (dry_run_reports_hooks Sample.repr Sample.tool Sample.hook_status
           Sample.policy Sample.config Edge.args_dry [] sample_valid eq_refl).
  simpl. repeat split.
Defined.

Lemma dry_run_never_launches_a_hook_witness :
  exists r new,
    CreateAction_execute Sample.repr Sample.tool Sample.hook_status_false
      Sample.config_no_repository Edge.args_dry []
    = (r, [] ++ new)
    /\ existsb is_hook new = false.
Proof.
  exact (dry_run_never_launches_a_hook Sample.repr Sample.tool
           Sample.hook_status_false Sample.config_no_repository Edge.args_dry
           [] eq_refl).
Defined.


Lemma sample_latest : latest_archive Sample.report Sample.start 5000000.
Proof. eexists _, _, _, _. repeat split. Qed.

Lemma check_age_cli_thresholds_witness :
  CheckAgeAction_execute Sample.repr Sample.tool Sample.safe_load
    Sample.seconds_since Sample.config Edge.args_check []
  = (Raise (SystemExit 1),
     [Launch (info_command Sample.policy) None true;
      Print (too_small_message 5000000 10485760)]).
Proof.
  exact (check_age_cli_thresholds Sample.repr Sample.tool Sample.safe_load
           Sample.seconds_since Sample.policy Sample.config Sample.report
           Edge.args_check [] "{json}" Sample.start 5000000 (inject_Z 36000)
           sample_remote eq_refl eq_refl sample_latest eq_refl).
Defined.

Lemma check_age_query_failure_witness :
  action_check_age Sample.repr Edge.tool_fails Sample.safe_load
    Sample.seconds_since Sample.config (6 * 3600) None []
  = (Raise (CalledProcessError 2),
     [Launch (info_command Sample.policy) None true])
  /\ action_check_age Sample.repr Sample.tool Edge.safe_load_fails
       Sample.seconds_since Sample.config (6 * 3600) None []
     = (Raise YAMLError, [Launch (info_command Sample.policy) None true]).
Proof.
  split.
  - apply (proj1 (check_age_query_failure Sample.repr Edge.tool_fails
                    Sample.safe_load Sample.seconds_since Sample.policy
                    Sample.config (6 * 3600) None [] "" 2
                    sample_remote eq_refl)).
    discriminate.
  - apply (proj2 (check_age_query_failure Sample.repr Sample.tool
                    Edge.safe_load_fails Sample.seconds_since Sample.policy
                    Sample.config (6 * 3600) None [] "{json}" 0
                    sample_remote eq_refl) eq_refl YAMLError).
    reflexivity.
Defined.

Lemma check_age_without_min_size_witness :
  action_check_age Sample.repr Sample.tool Edge.safe_load_text_size
    Sample.seconds_since Sample.config (24 * 3600) None []
  = (Ok tt, [Launch (info_command Sample.policy) None true; Print ok_message]).
Proof.
  apply (proj1 (check_age_without_min_size Sample.repr Sample.tool
                  Edge.safe_load_text_size Sample.seconds_since Sample.policy
                  Sample.config (24 * 3600) [] "{json}" Sample.start
                  Edge.report_text_size Edge.record_text_size
                  Edge.stats_text_size [] (inject_Z 36000)
                  sample_remote eq_refl eq_refl eq_refl eq_refl eq_refl
                  eq_refl ltac:(unfold Qle; simpl; lia))
           (VStr "big")).
  reflexivity.
Defined.

Lemma exclude_string_is_split_witness :
  action_create Sample.repr Sample.tool Edge.config_exclude_string false []
  = (Ok tt,
     [Launch
        (map VStr
           ["borgbackup"; "create"; "--compression"; "lz4";
            "--exclude"; "*"; "--exclude"; "."; "--exclude"; "o";
            "/path/testrepo::testprefix-{utcnow:%Y-%m-%dT%H:%M:%SZ}";
            "source1"])
        None false]).
Proof.
  assert (Hrem : has_remote Sample.policy Edge.config_exclude_string).
  { eexists _, _. repeat split. }
  exact (exclude_string_is_split Sample.repr Sample.tool Sample.policy
           Edge.doc_exclude_string Edge.location_exclude_string
           "*.o" ["source1"] false [] Hrem eq_refl eq_refl eq_refl eq_refl
           eq_refl eq_refl).
Defined.

Lemma empty_hooks_section_raises_witness :
  CreateAction_execute Sample.repr Sample.tool Sample.hook_status
    Edge.config_hooks_null Sample.args []
  = (Raise TypeError, []).
Proof.
  exact (proj1 (empty_hooks_section_raises Sample.repr Sample.tool
                  Sample.hook_status Edge.doc_hooks_null Sample.args [])
           eq_refl).
Defined.

Lemma missing_retention_found_after_backup_witness :
  CreateAction_execute Sample.repr Sample.tool Sample.hook_status
    Sample.config_no_retention Sample.args []
  = (Raise (KeyError "retention"),
     [launch_of Sample.policy_no_retention
        (create_command Sample.policy_no_retention false)]).
Proof.
  apply (missing_retention_found_after_backup Sample.repr Sample.tool
           Sample.hook_status Sample.policy_no_retention
           Sample.config_no_retention Sample.args []).
  - eexists _, _. repeat split.
  - eexists _, _. repeat split.
  - eexists. repeat split.
  - eexists. now split.
  - reflexivity.
  - simpl. repeat split.
Defined.
